(** * Excel Analytics: the upload, preview and chart pipeline

    A shallow embedding of the data-bearing code of the dashboard:

    - [FileUpload.processExcelFile]: validation and decoding of a file
      (src/components/FileUpload.tsx);
    - [DataPreview]: search, sort, paging and cell rendering of the table
      (the DataPreview component, second half of
      src/components/ErrorBoundary.tsx);
    - [ChartGenerator.chartData] and [ChartGenerator.layout]
      (src/components/ChartGenerator.tsx);
    - [Dashboard.handleDataUpload]: the upload history (the Dashboard
      component).

    The components are TypeScript over [any[][]]: the cells are JavaScript
    primitives and the code leans on the language's coercions ([String],
    [Number], [===], [<], truthiness) and on [Array.prototype.sort].  The
    first part of the file fixes the meaning of those; the modules that
    follow transcribe the components statement by statement. *)

From Stdlib Require Import ZArith List String Ascii Bool Lia.
From Stdlib Require Import Permutation Sorted DecimalString QArith.
From Stdlib Require DecimalZ DecimalPos.
Import ListNotations.

Set Warnings "-register-all".

Local Open Scope string_scope.
Local Open Scope list_scope.
Local Open Scope Z_scope.

(** ** Strings

    A string is a sequence of code units.  Rocq's [string] holds 8-bit
    units, so the model covers the strings whose code units are below 256
    (ASCII and Latin-1). *)

Module Str.

(** [String.prototype.toLowerCase] on one code unit: [A]-[Z] and the
    Latin-1 capitals U+00C0..U+00DE (the multiplication sign U+00D7
    apart) move up by 32. *)
Definition lower_unit (c : ascii) : ascii :=
  let n := N_of_ascii c in
  if ((65 <=? n) && (n <=? 90))%N then ascii_of_N (n + 32)
  else if ((192 <=? n) && (n <=? 222) && negb (n =? 215))%N
       then ascii_of_N (n + 32)
  else c.

Fixpoint toLowerCase (s : string) : string :=
  match s with
  | EmptyString => EmptyString
  | String c s' => String (lower_unit c) (toLowerCase s')
  end.

(** [s.includes(t)]: [t] occurs in [s] at some position. *)
Fixpoint includes (s t : string) : bool :=
  String.prefix t s
  || match s with
     | EmptyString => false
     | String _ s' => includes s' t
     end.

(** [s < t] on two strings: lexicographic on code units, a proper prefix
    being smaller. *)
Fixpoint ltb (s t : string) : bool :=
  match s, t with
  | _, EmptyString => false
  | EmptyString, String _ _ => true
  | String a s', String b t' =>
      let x := N_of_ascii a in
      let y := N_of_ascii b in
      if (x <? y)%N then true
      else if (x =? y)%N then ltb s' t'
      else false
  end.

(** The falsy string is the empty one. *)
Definition nonEmpty (s : string) : bool :=
  match s with
  | EmptyString => false
  | String _ _ => true
  end.

End Str.

(** ** Numbers

    The cells of a sheet are IEEE doubles.  The components never compute
    with them: they compare them ([===], [<]), print them ([String]) and
    read them from text ([Number]).  Those operations of the engine are
    the interface [JsNumber]; its laws are the order facts of IEEE 754 that
    the proofs use.  Every theorem below holds for every implementation of
    the interface. *)

Class JsNumber (num : Type) : Type := {
  num_nan : num;                         (* NaN *)
  num_zero : num;                        (* +0 *)
  num_one : num;                         (* 1 *)
  num_eqb : num -> num -> bool;          (* x === y on numbers *)
  num_ltb : num -> num -> bool;          (* x < y on numbers *)
  num_toString : num -> string;          (* Number::toString(x) *)
  num_ofString : string -> num;          (* StringToNumber(s) *)
  (* === is symmetric and transitive; only NaN is not === itself *)
  num_eqb_sym : forall x y, num_eqb x y = num_eqb y x;
  num_eqb_trans : forall x y z,
      num_eqb x y = true -> num_eqb y z = true -> num_eqb x z = true;
  num_nan_neq : num_eqb num_nan num_nan = false;
  num_zero_eq : num_eqb num_zero num_zero = true;
  num_one_eq : num_eqb num_one num_one = true;
  (* < is a strict order that is total on the numbers other than NaN *)
  num_ltb_trans : forall x y z,
      num_ltb x y = true -> num_ltb y z = true -> num_ltb x z = true;
  num_ltb_neq : forall x y, num_ltb x y = true -> num_eqb x y = false;
  num_ltb_asym : forall x y, num_ltb x y = true -> num_ltb y x = false;
  num_ltb_total : forall x y,
      num_eqb x x = true -> num_eqb y y = true ->
      num_eqb x y = false -> num_ltb x y = false -> num_ltb y x = true;
  (* a comparison with NaN is false *)
  num_ltb_nan_l : forall x y, num_eqb x x = false -> num_ltb x y = false;
  num_ltb_nan_r : forall x y, num_eqb y y = false -> num_ltb x y = false;
  num_zero_lt_one : num_ltb num_zero num_one = true;
  (* the empty text reads as +0 *)
  num_ofString_empty : num_eqb (num_ofString "") num_zero = true
}.

(** [isNaN(x)] on a number: NaN is the one number that is not [===] to
    itself. *)
Definition num_isNaN {num} `{JsNumber num} (x : num) : bool :=
  negb (num_eqb x x).

(** ** Values and coercions *)

Module Js.

(** The primitives a cell can hold. *)
Inductive JsValue (num : Type) : Type :=
| VUndefined
| VNull
| VBoolean (b : bool)
| VNumber (n : num)
| VString (s : string).

Arguments VUndefined {num}.
Arguments VNull {num}.
Arguments VBoolean {num} b.
Arguments VNumber {num} n.
Arguments VString {num} s.

Section Coercions.
Context {num : Type} `{JsNumber num}.

(** [String(v)] *)
Definition ToString (v : JsValue num) : string :=
  match v with
  | VUndefined => "undefined"
  | VNull => "null"
  | VBoolean true => "true"
  | VBoolean false => "false"
  | VNumber n => num_toString n
  | VString s => s
  end.

(** [Number(v)] *)
Definition ToNumber (v : JsValue num) : num :=
  match v with
  | VUndefined => num_nan
  | VNull => num_zero
  | VBoolean true => num_one
  | VBoolean false => num_zero
  | VNumber n => n
  | VString s => num_ofString s
  end.

(** Truthiness: [undefined], [null], [false], [+0], [-0], [NaN] and the
    empty string are falsy. *)
Definition ToBoolean (v : JsValue num) : bool :=
  match v with
  | VUndefined => false
  | VNull => false
  | VBoolean b => b
  | VNumber n => negb (num_eqb n num_zero || num_isNaN n)
  | VString s => Str.nonEmpty s
  end.

(** [a === b] *)
Definition strictEq (a b : JsValue num) : bool :=
  match a, b with
  | VUndefined, VUndefined => true
  | VNull, VNull => true
  | VBoolean x, VBoolean y => Bool.eqb x y
  | VNumber x, VNumber y => num_eqb x y
  | VString x, VString y => String.eqb x y
  | _, _ => false
  end.

(** [a < b]: two strings compare by code units; any other pair is
    compared as numbers, and a comparison that involves NaN is not
    true. *)
Definition lessThan (a b : JsValue num) : bool :=
  match a, b with
  | VString x, VString y => Str.ltb x y
  | _, _ => num_ltb (ToNumber a) (ToNumber b)
  end.

(** [isNaN(Number(v))] *)
Definition isNaN (v : JsValue num) : bool := num_isNaN (ToNumber v).

(** A row of the sheet: an array that may have holes ([None]) where
    the sheet has no cell. *)
Definition Row : Type := list (option (JsValue num)).

(** [row[i]]: a hole, and an index outside the array, read as
    [undefined]. *)
Definition get (row : Row) (i : Z) : JsValue num :=
  if i <? 0 then VUndefined
  else match nth_error row (Z.to_nat i) with
       | Some (Some v) => v
       | _ => VUndefined
       end.

(** [row.some(p)]: the callback is not called on a hole. *)
Definition some (p : JsValue num -> bool) (row : Row) : bool :=
  existsb (fun slot => match slot with Some v => p v | None => false end)
          row.

End Coercions.

(** [headers.indexOf(name)] on an array of strings: the first position,
    or -1. *)
Fixpoint indexOf (headers : list string) (name : string) : Z :=
  match headers with
  | [] => -1
  | h :: rest =>
      if String.eqb h name then 0
      else let i := indexOf rest name in
           if i <? 0 then -1 else i + 1
  end.

End Js.

(** ** [Array.prototype.sort]

    The engine's sort is known by its contract (ECMAScript 2019 and
    later).  The result is always a rearrangement of the array.  When the
    comparison function is _consistent_ on the elements, the result is
    sorted by it and elements that compare equal keep their order; when it
    is not, the order is left to the engine. *)

Section Comparefn.
Context {A : Type} (comparefn : A -> A -> Z).

(** A consistent comparison function for the values [S]: [= 0] is an
    equivalence, [< 0] and [> 0] are transitive. *)
Record consistent (S : list A) : Prop := {
  cf_refl : forall a, In a S -> comparefn a a = 0;
  cf_sym : forall a b, In a S -> In b S ->
      comparefn a b = 0 -> comparefn b a = 0;
  cf_trans_eq : forall a b c, In a S -> In b S -> In c S ->
      comparefn a b = 0 -> comparefn b c = 0 -> comparefn a c = 0;
  cf_trans_lt : forall a b c, In a S -> In b S -> In c S ->
      comparefn a b < 0 -> comparefn b c < 0 -> comparefn a c < 0;
  cf_trans_gt : forall a b c, In a S -> In b S -> In c S ->
      comparefn a b > 0 -> comparefn b c > 0 -> comparefn a c > 0
}.

(** No element is followed, at any distance, by one it is greater
    than. *)
Definition sortedBy (l : list A) : Prop :=
  StronglySorted (fun a b => comparefn a b <= 0) l.

(** The elements that compare equal to [x], in the order of [l]. *)
Definition equalsOf (x : A) (l : list A) : list A :=
  filter (fun y => comparefn x y =? 0) l.

(** [new] keeps the elements of [old] that compare equal in the order
    they have in [old]. *)
Definition keepsOrderOfEquals (old new : list A) : Prop :=
  forall x, In x old -> equalsOf x new = equalsOf x old.

End Comparefn.

Class ArraySort : Type := {
  sort : forall {A : Type}, (A -> A -> Z) -> list A -> list A;
  sort_permutation : forall (A : Type) (f : A -> A -> Z) (l : list A),
      Permutation l (sort f l);
  sort_sorted : forall (A : Type) (f : A -> A -> Z) (l : list A),
      consistent f l -> sortedBy f (sort f l);
  sort_stable : forall (A : Type) (f : A -> A -> Z) (l : list A),
      consistent f l -> keepsOrderOfEquals f l (sort f l)
}.

(** ** DataPreview: the table over the uploaded rows *)

Module DataPreview.
Import Js.

Inductive SortDirection : Type := asc | desc.

(** The four [useState] cells of the component. *)
Record State : Type := {
  showAllRows : bool;
  searchTerm : string;
  sortColumn : option string;          (* string | null *)
  sortDirection : SortDirection
}.

Definition initialState : State :=
  {| showAllRows := false; searchTerm := "";
     sortColumn := None; sortDirection := asc |}.

Definition maxPreviewRows : nat := 10.

Section View.
Context {num : Type} `{JsNumber num} `{ArraySort}.
Variable data : list (@Row num).
Variable headers : list string.

(** The callback of [data.filter]: some cell, as lower-case text,
    includes the lower-case term. *)
Definition matches (searchTerm : string) (row : @Row num) : bool :=
  some (fun cell =>
          Str.includes (Str.toLowerCase (ToString cell))
                       (Str.toLowerCase searchTerm))
       row.

(** The comparison function handed to [sort]. *)
Definition comparefn (columnIndex : Z) (sortDirection : SortDirection)
           (a b : @Row num) : Z :=
  let aVal := get a columnIndex in
  let bVal := get b columnIndex in
  if strictEq aVal bVal then 0
  else
    let comparison := if lessThan aVal bVal then -1 else 1 in
    match sortDirection with
    | asc => comparison
    | desc => - comparison
    end.

(** The search filter alone ([if (searchTerm)]). *)
Definition filteredData (st : State) : list (@Row num) :=
  if Str.nonEmpty (searchTerm st)
  then filter (matches (searchTerm st)) data
  else data.

(** [if (sortColumn)]: a column is set and its name is not empty. *)
Definition sortColumnSet (st : State) : option string :=
  match sortColumn st with
  | Some c => if Str.nonEmpty c then Some c else None
  | None => None
  end.

Definition filteredAndSortedData (st : State) : list (@Row num) :=
  match sortColumnSet st with
  | Some c =>
      let columnIndex := indexOf headers c in
      sort (comparefn columnIndex (sortDirection st)) (filteredData st)
  | None => filteredData st
  end.

(** [filteredAndSortedData.slice(0, maxPreviewRows)] unless all rows
    are asked for. *)
Definition previewRows (st : State) : list (@Row num) :=
  if showAllRows st then filteredAndSortedData st
  else firstn maxPreviewRows (filteredAndSortedData st).

Definition hasMoreRows (st : State) : bool :=
  (maxPreviewRows <? List.length (filteredAndSortedData st))%nat.

(** The guard of the note "Showing 10 of N rows":
    [hasMoreRows && !showAllRows]. *)
Definition showsTruncationNote (st : State) : bool :=
  hasMoreRows st && negb (showAllRows st).

(** A click on a column header. *)
Definition handleSort (column : string) (st : State) : State :=
  if match sortColumn st with
     | Some c => String.eqb c column
     | None => false
     end
  then {| showAllRows := showAllRows st; searchTerm := searchTerm st;
          sortColumn := sortColumn st;
          sortDirection := match sortDirection st with
                           | asc => desc
                           | desc => asc
                           end |}
  else {| showAllRows := showAllRows st; searchTerm := searchTerm st;
          sortColumn := Some column; sortDirection := asc |}.

(** The content of a table cell: [row[colIndex] || '-']. *)
Definition cellContent (row : @Row num) (colIndex : Z) : JsValue num :=
  let v := get row colIndex in
  if ToBoolean v then v else VString "-".

(** The cells of a table row: one per header. *)
Definition rowCells (row : @Row num) : list (JsValue num) :=
  map (fun colIndex => cellContent row (Z.of_nat colIndex))
      (seq 0 (List.length headers)).

End View.

(** What the component renders from, under the names of the
    specification: the rows of the table body ([previewRows]), the count
    of matched rows ([filteredAndSortedData.length]), and whether the
    table is shown cut, with its note ([hasMoreRows && !showAllRows]). *)
Record View (num : Type) : Type := {
  visibleRows : list (@Row num);
  totalMatched : nat;
  isTruncated : bool
}.

Arguments visibleRows {num}.
Arguments totalMatched {num}.
Arguments isTruncated {num}.

Definition view {num : Type} `{JsNumber num} `{ArraySort}
           (data : list (@Row num)) (headers : list string) (st : State)
  : View num :=
  {| visibleRows := previewRows data headers st;
     totalMatched := List.length (filteredAndSortedData data headers st);
     isTruncated := showsTruncationNote data headers st |}.

End DataPreview.

(** ** ChartGenerator: traces and layout for the chart widget *)

Module ChartGenerator.
Import Js.

(** The object literals handed to the chart widget. *)
Inductive Json (num : Type) : Type :=
| JValue (v : JsValue num)             (* a cell, or a string or boolean
                                          literal *)
| JLiteral (text : string)             (* a numeric literal, as written *)
| JArray (items : list (Json num))
| JObject (fields : list (string * Json num)).

Arguments JValue {num} v.
Arguments JLiteral {num} text.
Arguments JArray {num} items.
Arguments JObject {num} fields.

(** [o.name]; [None] when the object has no such key. *)
Definition field {num : Type} (name : string) (o : Json num)
  : option (Json num) :=
  match o with
  | JObject fields =>
      match find (fun kv => String.eqb (fst kv) name) fields with
      | Some kv => Some (snd kv)
      | None => None
      end
  | _ => None
  end.

Inductive ChartType : Type := bar | line | scatter | pie | bar3d | scatter3d.

Definition noNumericDataMessage : string :=
  "Selected Y-axis column contains no numeric data".

(** What one evaluation of the [chartData] memo does: the value it
    returns ([null] or the array of traces) and the message it calls
    [setError] with, if it calls it. *)
Record Outcome (num : Type) : Type := {
  traces : option (list (Json num));
  setError : option string
}.

Arguments Build_Outcome {num}.
Arguments traces {num}.
Arguments setError {num}.

Section Chart.
Context {num : Type} `{JsNumber num}.
Variable data : list (@Row num).
Variable headers : list string.

Definition str (s : string) : Json num := JValue (VString s).
Definition cells (l : list (JsValue num)) : Json num :=
  JArray (map JValue l).

(** The callback of [yValues.filter]:
    [!isNaN(Number(val)) && val !== null && val !== ''] *)
Definition isNumericY (val : JsValue num) : bool :=
  negb (isNaN val)
  && negb (strictEq val VNull)
  && negb (strictEq val (VString "")).

Definition column (index : Z) : list (JsValue num) :=
  map (fun row => get row index) data.

Definition numericYValues (yIndex : Z) : list (JsValue num) :=
  filter isNumericY (column yIndex).

Definition baseTrace (xAxis yAxis : string)
           (xValues yValues : list (JsValue num))
  : list (string * Json num) :=
  [ ("x", cells xValues);
    ("y", cells yValues);
    ("name", str (yAxis ++ " vs " ++ xAxis)%string) ].

(** The [switch (chartType)]. *)
Definition traceOf (chartType : ChartType) (xAxis yAxis : string)
           (xValues yValues : list (JsValue num)) : Json num :=
  let base := baseTrace xAxis yAxis xValues yValues in
  match chartType with
  | bar =>
      JObject (base ++
        [ ("type", str "bar");
          ("marker", JObject
             [ ("color", str "rgba(59, 130, 246, 0.8)");
               ("line", JObject [ ("color", str "rgba(59, 130, 246, 1)");
                                  ("width", JLiteral "1") ]) ]) ])
  | line =>
      JObject (base ++
        [ ("type", str "scatter");
          ("mode", str "lines+markers");
          ("line", JObject [ ("color", str "rgba(34, 197, 94, 0.8)");
                             ("width", JLiteral "3") ]);
          ("marker", JObject [ ("color", str "rgba(34, 197, 94, 1)");
                               ("size", JLiteral "6") ]) ])
  | scatter =>
      JObject (base ++
        [ ("type", str "scatter");
          ("mode", str "markers");
          ("marker", JObject
             [ ("color", str "rgba(168, 85, 247, 0.8)");
               ("size", JLiteral "8");
               ("line", JObject [ ("color", str "rgba(168, 85, 247, 1)");
                                  ("width", JLiteral "1") ]) ]) ])
  | pie =>
      JObject
        [ ("labels", cells xValues);
          ("values", cells yValues);
          ("type", str "pie");
          ("hole", JLiteral "0.3");
          ("marker", JObject
             [ ("colors", JArray
                  [ str "rgba(59, 130, 246, 0.8)";
                    str "rgba(34, 197, 94, 0.8)";
                    str "rgba(168, 85, 247, 0.8)";
                    str "rgba(251, 191, 36, 0.8)";
                    str "rgba(239, 68, 68, 0.8)" ]) ]) ]
  | bar3d =>
      JObject (base ++
        [ ("type", str "bar");
          ("marker", JObject [ ("color", cells yValues);
                               ("colorscale", str "Viridis");
                               ("showscale", JValue (VBoolean true)) ]) ])
  | scatter3d =>
      JObject (base ++
        [ ("type", str "scatter3d");
          ("mode", str "markers");
          ("marker", JObject [ ("size", JLiteral "5");
                               ("color", cells yValues);
                               ("colorscale", str "Viridis");
                               ("showscale", JValue (VBoolean true)) ]) ])
  end.

(** The body of the [chartData] memo. *)
Definition chartData (xAxis yAxis : string) (chartType : ChartType)
  : Outcome num :=
  if negb (Str.nonEmpty xAxis) || negb (Str.nonEmpty yAxis)
     || (List.length data =? 0)%nat
  then Build_Outcome None None
  else
    let xIndex := indexOf headers xAxis in
    let yIndex := indexOf headers yAxis in
    if (xIndex =? -1) || (yIndex =? -1)
    then Build_Outcome None None
    else
      let xValues := column xIndex in
      let yValues := column yIndex in
      if (List.length (numericYValues yIndex) =? 0)%nat
      then Build_Outcome None (Some noNumericDataMessage)
      else Build_Outcome
             (Some [traceOf chartType xAxis yAxis xValues yValues]) None.

(** The [layout] constant of the component. *)
Definition layout (xAxis yAxis : string) : Json num :=
  JObject
    [ ("title", JObject
         [ ("text", str (yAxis ++ " vs " ++ xAxis)%string);
           ("font", JObject [ ("size", JLiteral "18");
                              ("color", str "#374151") ]) ]);
      ("xaxis", JObject [ ("title", str xAxis) ]);
      ("yaxis", JObject [ ("title", str yAxis) ]);
      ("paper_bgcolor", str "rgba(0,0,0,0)");
      ("plot_bgcolor", str "rgba(0,0,0,0)");
      ("margin", JObject [ ("t", JLiteral "50"); ("l", JLiteral "50");
                           ("r", JLiteral "50"); ("b", JLiteral "50") ]);
      ("font", JObject [ ("color", str "#374151") ]) ].

(** The props of the chart widget, when the chart is drawn
    ([chartData && <LazyChart data={chartData} layout={layout} />]):
    the layout is the same object for every chart type. *)
Definition chartProps (xAxis yAxis : string) (chartType : ChartType)
  : option (list (Json num) * Json num) :=
  match traces (chartData xAxis yAxis chartType) with
  | Some d => Some (d, layout xAxis yAxis)
  | None => None
  end.

(** The [error] state after the memo ran: [setError] replaces it,
    nothing else in the memo touches it. *)
Definition errorAfter (error : option string) (o : Outcome num)
  : option string :=
  match setError o with
  | Some msg => Some msg
  | None => error
  end.

End Chart.

(** The state of the component and its handlers. *)

Record State : Type := {
  xAxis : string;
  yAxis : string;
  chartType : ChartType;
  error : option string
}.

Definition initialState : State :=
  {| xAxis := ""; yAxis := ""; chartType := bar; error := None |}.


(** The three [Select]s. *)
Definition setXAxis (value : string) (st : State) : State :=
  {| xAxis := value; yAxis := yAxis st;
     chartType := chartType st; error := error st |}.

Definition setYAxis (value : string) (st : State) : State :=
  {| xAxis := xAxis st; yAxis := value;
     chartType := chartType st; error := error st |}.

Definition setChartType (value : ChartType) (st : State) : State :=
  {| xAxis := xAxis st; yAxis := yAxis st;
     chartType := value; error := error st |}.

(** [resetChart]: the four states go back to their first values (the
    toast "Chart reset" apart). *)
Definition resetChart (st : State) : State := initialState.

(** A render: the memo runs on the current selection, and its call of
    [setError], if any, is the one change of the state. *)
Definition render {num : Type} `{JsNumber num}
           (data : list (@Row num)) (headers : list string) (st : State)
  : State :=
  {| xAxis := xAxis st; yAxis := yAxis st; chartType := chartType st;
     error := errorAfter (error st)
                (chartData data headers (xAxis st) (yAxis st)
                           (chartType st)) |}.

End ChartGenerator.

(** ** The decoded workbook *)

(** [interface ExcelData].  [headers] is the first row of the sheet as the
    codec returned it: the cast [as string[]] checks nothing. *)
Record ExcelData (num : Type) : Type := {
  data : list (@Js.Row num);
  headers : @Js.Row num;
  sheetNames : list string
}.

Arguments Build_ExcelData {num}.
Arguments data {num}.
Arguments headers {num}.
Arguments sheetNames {num}.

(** ** FileUpload: validating and decoding a file *)

Module FileUpload.
Import Js.

(** What a [catch] receives: an [Error] with its message, or any other
    value. *)
Inductive Thrown : Type :=
| ThrownError (message : string)
| ThrownOther.

Section Decode.
(** The spreadsheet codec (the [xlsx] package) and the browser's file
    reader are outside the repository: a workbook is what
    [XLSX.read] returned, [sheet_to_json] is
    [XLSX.utils.sheet_to_json(_, {header: 1})]. *)
Context {num ArrayBuffer Worksheet : Type}.

Record Workbook : Type := {
  SheetNames : list string;
  Sheets : string -> option Worksheet
}.

Variable XLSX_read : ArrayBuffer -> Thrown + Workbook.
Variable sheet_to_json : option Worksheet -> Thrown + list (@Row num).

(** The [File] of the browser. *)
Record File : Type := {
  name : string;
  size : Z;
  type : string;
  arrayBuffer : Thrown + ArrayBuffer
}.

(** The calls the function makes on the component and on the outside,
    in order. *)
Inductive Event : Type :=
| SetIsLoading (b : bool)
| SetError (e : option string)
| SetUploadProgress (n : Z)
| CallArrayBuffer                    (* await file.arrayBuffer() *)
| CallXlsxRead                       (* XLSX.read(arrayBuffer) *)
| CallSheetToJson                    (* XLSX.utils.sheet_to_json(...) *)
| OnDataUpload (d : ExcelData num) (fileName : string)
| ResetProgressLater.                (* setTimeout(..., 1000) *)

(** The body of a [try]: the calls made so far, and either the value
    thrown or the result. *)
Definition Try (A : Type) : Type := (list Event * (Thrown + A))%type.

Definition ret {A : Type} (a : A) : Try A := ([], inr a).

Definition bind {A B : Type} (m : Try A) (k : A -> Try B) : Try B :=
  match m with
  | (es, inl t) => (es, inl t)
  | (es, inr a) => let (es', r) := k a in (es ++ es', r)
  end.

Definition emit (e : Event) : Try unit := ([e], inr tt).

Definition throw {A : Type} (message : string) : Try A :=
  ([], inl (ThrownError message)).

(** A call to the outside: the call is made, and it returns or
    throws. *)
Definition call {A : Type} (e : Event) (r : Thrown + A) : Try A :=
  ([e], r).

Definition when (b : bool) (m : Try unit) : Try unit :=
  if b then m else ret tt.

Notation "x <- m ;; k" := (bind m (fun x => k))
  (at level 61, m at next level, right associativity).
Notation "m ;; k" := (bind m (fun _ => k))
  (at level 61, right associativity).

Definition maxSize : Z := 10 * 1024 * 1024.

Definition allowedTypes : list string :=
  [ "application/vnd.openxmlformats-officedocument.spreadsheetml.sheet";
    "application/vnd.ms-excel" ].

(** [allowedTypes.includes(t)] *)
Definition includes (l : list string) (t : string) : bool :=
  existsb (fun a => String.eqb a t) l.

Definition sizeMessage : string := "File size exceeds 10MB limit".
Definition typeMessage : string :=
  "Please upload a valid Excel file (.xlsx or .xls)".
Definition emptyMessage : string := "The Excel file appears to be empty".
Definition noHeadersMessage : string :=
  "No headers found in the Excel file".
Definition noDataMessage : string :=
  "No data rows found in the Excel file".
Definition fallbackMessage : string := "Failed to process the Excel file".

(** The [try] block of [processExcelFile]. *)
Definition tryBlock (file : File) : Try unit :=
  when (size file >? maxSize) (throw sizeMessage) ;;
  when (negb (includes allowedTypes (type file))) (throw typeMessage) ;;
  emit (SetUploadProgress 25) ;;
  buffer <- call CallArrayBuffer (arrayBuffer file) ;;
  emit (SetUploadProgress 50) ;;
  workbook <- call CallXlsxRead (XLSX_read buffer) ;;
  emit (SetUploadProgress 75) ;;
  let firstSheetName :=
    match SheetNames workbook with
    | n :: _ => n
    | [] => "undefined"
    end in
  let worksheet := Sheets workbook firstSheetName in
  jsonData <- call CallSheetToJson (sheet_to_json worksheet) ;;
  match jsonData with
  | [] => throw emptyMessage
  | headers :: data =>
      when (List.length headers =? 0)%nat (throw noHeadersMessage) ;;
      when (List.length data =? 0)%nat (throw noDataMessage) ;;
      emit (SetUploadProgress 90) ;;
      let excelData :=
        {| data := data; headers := headers;
           sheetNames := SheetNames workbook |} in
      emit (SetUploadProgress 100) ;;
      emit (OnDataUpload excelData (name file))
  end.

(** [err instanceof Error ? err.message : '...'] *)
Definition messageOf (t : Thrown) : string :=
  match t with
  | ThrownError m => m
  | ThrownOther => fallbackMessage
  end.

(** [processExcelFile]: the three resets, the [try] block, the
    [catch] and the [finally]. *)
Definition processExcelFile (file : File) : list Event :=
  let (es, r) := tryBlock file in
  [SetIsLoading true; SetError None; SetUploadProgress 0]
  ++ es
  ++ match r with
     | inl t => [SetError (Some (messageOf t))]
     | inr _ => []
     end
  ++ [SetIsLoading false; ResetProgressLater].

(** The message left in the [error] state by a run: the last
    [setError]. *)
Definition errorOf (events : list Event) : option string :=
  fold_left (fun acc e => match e with SetError m => m | _ => acc end)
            events None.

(** The data handed to [onDataUpload] by a run, if any. *)
Definition uploaded (events : list Event) : option (ExcelData num) :=
  fold_left (fun acc e =>
               match e with OnDataUpload d _ => Some d | _ => acc end)
            events None.

(** [onDropRejected]: the dropzone refused the file itself; the
    message is chosen by the code of the first error the dropzone
    lists for the first refused file ([codes]). *)
Definition rejectionMessage (codes : list string) : string :=
  match codes with
  | code :: _ =>
      if String.eqb code "file-too-large" then sizeMessage
      else if String.eqb code "file-invalid-type" then typeMessage
      else "File upload failed. Please try again."
  | [] => "File upload failed. Please try again."
  end.

Definition onDropRejected (codes : list string) : list Event :=
  [SetError (Some (rejectionMessage codes))].

(** Whether a run reached the reader or the codec. *)
Definition decodes (events : list Event) : bool :=
  existsb (fun e => match e with
                    | CallArrayBuffer | CallXlsxRead | CallSheetToJson => true
                    | _ => false
                    end) events.

(** [onDrop]: the first accepted file is processed, the others are
    not looked at. *)
Definition onDrop (acceptedFiles : list File) : list Event :=
  match acceptedFiles with
  | file :: _ => processExcelFile file
  | [] => []
  end.

(** The values [setUploadProgress] is called with, in order. *)
Definition progressOf (events : list Event) : list Z :=
  flat_map (fun e => match e with
                     | SetUploadProgress n => [n]
                     | _ => []
                     end) events.

End Decode.
End FileUpload.

(** ** Dashboard: the upload history *)

Module Dashboard.
Import Js.

(** Decimal text of an integer ([Number::toString] on an integer below
    1e21). *)
Definition decimal (z : Z) : string := NilZero.string_of_int (Z.to_int z).

(** [interface UploadHistory]; a [Date] is its time value. *)
Record UploadHistory : Type := {
  id : string;
  fileName : string;
  uploadDate : Z;
  rowCount : nat;
  columnCount : nat
}.

Record Toast : Type := {
  title : string;
  description : string;
  destructive : bool
}.

Record State (num : Type) : Type := {
  uploadedData : option (ExcelData num);
  uploadHistory : list UploadHistory;
  currentFileName : string;
  isProcessing : bool;
  error : option string
}.

Arguments Build_State {num}.
Arguments uploadedData {num}.
Arguments uploadHistory {num}.
Arguments currentFileName {num}.
Arguments isProcessing {num}.
Arguments error {num}.

Definition initialState {num : Type} : State num :=
  {| uploadedData := None; uploadHistory := []; currentFileName := "";
     isProcessing := false; error := None |}.

(** One call of [handleDataUpload]: its arguments, and what the clock
    answers to [Date.now()] and to [new Date()]. *)
Record Upload (num : Type) : Type := {
  upData : ExcelData num;
  upFileName : option string;
  dateNow : Z;
  newDate : Z
}.

Arguments Build_Upload {num}.
Arguments upData {num}.
Arguments upFileName {num}.
Arguments dateNow {num}.
Arguments newDate {num}.

Section Upload.
Context {num : Type}.

(** The two validations of [handleDataUpload]: the message of the
    [Error] thrown, if one is. *)
Definition validate (d : ExcelData num) : option string :=
  if (List.length (data d) =? 0)%nat
  then Some "No data found in the uploaded file"
  else if (List.length (headers d) =? 0)%nat
  then Some "No headers found in the uploaded file"
  else None.

(** [fileName || 'excel-file.xlsx'] *)
Definition fileNameOr (f : option string) : string :=
  match f with
  | Some n => if Str.nonEmpty n then n else "excel-file.xlsx"
  | None => "excel-file.xlsx"
  end.

Definition newUpload (u : Upload num) : UploadHistory :=
  {| id := decimal (dateNow u);
     fileName := fileNameOr (upFileName u);
     uploadDate := newDate u;
     rowCount := List.length (data (upData u));
     columnCount := List.length (headers (upData u)) |}.

(** The updater [prev => [newUpload, ...prev.slice(0, 4)]]. *)
Definition pushHistory (n : UploadHistory) (prev : list UploadHistory)
  : list UploadHistory :=
  n :: firstn 4 prev.

Definition handleDataUpload (u : Upload num) (st : State num)
  : State num * Toast :=
  match validate (upData u) with
  | Some errorMessage =>
      ({| uploadedData := uploadedData st;
          uploadHistory := uploadHistory st;
          currentFileName := currentFileName st;
          isProcessing := false;
          error := Some errorMessage |},
       {| title := "Upload failed"; description := errorMessage;
          destructive := true |})
  | None =>
      let n := newUpload u in
      ({| uploadedData := Some (upData u);
          uploadHistory := pushHistory n (uploadHistory st);
          currentFileName := fileName n;
          isProcessing := false;
          error := None |},
       {| title := "File uploaded successfully";
          description :=
            ("Processed " ++ decimal (Z.of_nat (rowCount n))
             ++ " rows with " ++ decimal (Z.of_nat (columnCount n))
             ++ " columns")%string;
          destructive := false |})
  end.

(** An upload that passes the validations. *)
Definition succeeds (u : Upload num) : bool :=
  match validate (upData u) with
  | None => true
  | Some _ => false
  end.

(** The state after a sequence of calls, oldest first. *)
Definition run (us : list (Upload num)) (st : State num) : State num :=
  fold_left (fun s u => fst (handleDataUpload u s)) us st.

(** [handleReset]: the data, the file name and the error are cleared;
    the history is not touched. *)
Definition handleReset (st : State num) : State num * Toast :=
  ({| uploadedData := None;
      uploadHistory := uploadHistory st;
      currentFileName := "";
      isProcessing := isProcessing st;
      error := None |},
   {| title := "Data cleared";
      description := "Ready for a new file upload";
      destructive := false |}).

(** What the user does on the dashboard. *)
Inductive Action : Type :=
| DoUpload (u : Upload num)
| DoReset.

Definition step (st : State num) (a : Action) : State num :=
  match a with
  | DoUpload u => fst (handleDataUpload u st)
  | DoReset => fst (handleReset st)
  end.

Definition runActions (actions : list Action) (st : State num) : State num :=
  fold_left step actions st.

(** The first two cards of [stats]: [uploadHistory.length.toString()]
    and [uploadedData ? '1' : '0']. *)
Definition totalUploads (st : State num) : string :=
  decimal (Z.of_nat (List.length (uploadHistory st))).

Definition chartsGenerated (st : State num) : string :=
  match uploadedData st with
  | Some _ => "1"
  | None => "0"
  end.

(** The main panel shows the upload box exactly when there is no data
    ([!uploadedData ? <FileUpload/> : ...]). *)
Definition showsFileUpload (st : State num) : bool :=
  match uploadedData st with
  | Some _ => false
  | None => true
  end.

End Upload.
End Dashboard.

(** ** ErrorBoundary: the crash screen *)

Module ErrorBoundary.

(** An [Error], as far as the component reads it. *)
Record Error : Type := {
  message : string;
  stack : string
}.

Record State : Type := {
  hasError : bool;
  error : option Error
}.

Section Boundary.
Context {Node : Type}.

(** [fallback] is [None] when the prop is absent or falsy. *)
Record Props : Type := {
  children : Node;
  fallback : option Node
}.

(** The constructor. *)
Definition initialState : State := {| hasError := false; error := None |}.

Definition getDerivedStateFromError (e : Error) : State :=
  {| hasError := true; error := Some e |}.

Definition handleReset (st : State) : State :=
  {| hasError := false; error := None |}.

(** What [render] returns: the children, the fallback, or the card
    "Something went wrong", with the stack of the error when it shows
    one. *)
Inductive Rendered : Type :=
| Children (n : Node)
| Fallback (n : Node)
| Card (details : option string).

(** [development] is [process.env.NODE_ENV === 'development']. *)
Definition render (development : bool) (props : Props) (st : State)
  : Rendered :=
  if hasError st then
    match fallback props with
    | Some f => Fallback f
    | None =>
        Card (if development
              then match error st with
                   | Some e => Some (stack e)
                   | None => None
                   end
              else None)
    end
  else Children (children props).

(** What happens to the boundary: a descendant throws, or the user
    presses "Try Again". *)
Inductive Event : Type :=
| Throws (e : Error)
| TryAgain.

Definition step (st : State) (ev : Event) : State :=
  match ev with
  | Throws e => getDerivedStateFromError e
  | TryAgain => handleReset st
  end.

Definition run (events : list Event) : State :=
  fold_left step events initialState.

End Boundary.
End ErrorBoundary.

(** * Properties *)

(** ** Consistent comparison functions *)

Section ComparefnFacts.
Context {A : Type} (f : A -> A -> Z).

Lemma consistent_incl (S S' : list A) :
  (forall a, In a S' -> In a S) -> consistent f S -> consistent f S'.
Proof.
  intros sub [r s te tl tg]; constructor; intros.
  - apply r; auto.
  - apply s; auto.
  - apply te with b; auto.
  - apply tl with b; auto.
  - apply tg with b; auto.
Qed.

Section On.
Variable S : list A.
Hypothesis ok : consistent f S.

Lemma cf_gt_lt a b : In a S -> In b S -> f a b > 0 -> f b a < 0.
Proof.
  intros ia ib gt.
  destruct (Z.lt_trichotomy (f b a) 0) as [lt | [eq | gt']]; trivial.
  - apply (cf_sym f S ok) in eq; trivial. lia.
  - assert (f a a > 0) by (apply (cf_trans_gt f S ok) with b; trivial; lia).
    rewrite (cf_refl f S ok) in H; trivial. lia.
Qed.

Lemma cf_lt_gt a b : In a S -> In b S -> f a b < 0 -> f b a > 0.
Proof.
  intros ia ib lt.
  destruct (Z.lt_trichotomy (f b a) 0) as [lt' | [eq | gt]]; try lia.
  - assert (f a a < 0) by (apply (cf_trans_lt f S ok) with b; trivial).
    rewrite (cf_refl f S ok) in H; trivial. lia.
  - apply (cf_sym f S ok) in eq; trivial. lia.
Qed.

Lemma cf_lt_eq a b c :
  In a S -> In b S -> In c S -> f a b < 0 -> f b c = 0 -> f a c < 0.
Proof.
  intros ia ib ic lt eq.
  destruct (Z.lt_trichotomy (f a c) 0) as [lt' | [eq' | gt]]; trivial.
  - assert (f c b = 0) by (apply (cf_sym f S ok); trivial).
    assert (f a b = 0) by (apply (cf_trans_eq f S ok) with c; trivial).
    lia.
  - assert (f c a < 0) by (apply cf_gt_lt; trivial; lia).
    assert (f c b < 0) by (apply (cf_trans_lt f S ok) with a; trivial).
    assert (f c b = 0) by (apply (cf_sym f S ok); trivial).
    lia.
Qed.

Lemma cf_eq_lt a b c :
  In a S -> In b S -> In c S -> f a b = 0 -> f b c < 0 -> f a c < 0.
Proof.
  intros ia ib ic eq lt.
  destruct (Z.lt_trichotomy (f a c) 0) as [lt' | [eq' | gt]]; trivial.
  - assert (f b a = 0) by (apply (cf_sym f S ok); trivial).
    assert (f b c = 0) by (apply (cf_trans_eq f S ok) with a; trivial).
    lia.
  - assert (f c a < 0) by (apply cf_gt_lt; trivial; lia).
    assert (f b a < 0) by (apply (cf_trans_lt f S ok) with c; trivial).
    assert (f b a = 0) by (apply (cf_sym f S ok); trivial).
    lia.
Qed.

Lemma cf_le_trans a b c :
  In a S -> In b S -> In c S -> f a b <= 0 -> f b c <= 0 -> f a c <= 0.
Proof.
  intros ia ib ic ab bc.
  destruct (Z.eq_dec (f a b) 0) as [e1 | n1];
    destruct (Z.eq_dec (f b c) 0) as [e2 | n2].
  - rewrite (cf_trans_eq f S ok a b c); trivial. lia.
  - assert (f a c < 0) by (apply cf_eq_lt with b; trivial; lia). lia.
  - assert (f a c < 0) by (apply cf_lt_eq with b; trivial; lia). lia.
  - assert (f a c < 0)
      by (apply (cf_trans_lt f S ok) with b; trivial; lia).
    lia.
Qed.

Lemma cf_le_antisym a b :
  In a S -> In b S -> f a b <= 0 -> f b a <= 0 -> f a b = 0.
Proof.
  intros ia ib ab ba.
  destruct (Z.eq_dec (f a b) 0) as [e | n]; trivial.
  assert (f b a > 0) by (apply cf_lt_gt; trivial; lia). lia.
Qed.

(** An element is among its own equals. *)
Lemma equalsOf_self a l : In a S -> In a l -> In a (equalsOf f a l).
Proof.
  intros ia il. apply filter_In. split; trivial.
  rewrite (cf_refl f S ok); trivial.
Qed.

(** A sorted list that keeps the order of equals is determined by its
    elements: there is one stable sorted arrangement. *)
Lemma sorted_stable_unique (l1 l2 : list A) :
  (forall a, In a l1 -> In a S) ->
  (forall a, In a l2 -> In a S) ->
  sortedBy f l1 -> sortedBy f l2 ->
  (forall x, In x S -> equalsOf f x l1 = equalsOf f x l2) ->
  l1 = l2.
Proof.
  revert l2. induction l1 as [| a t1 IH]; intros l2 in1 in2 s1 s2 same.
  - destruct l2 as [| b t2]; trivial.
    assert (ib : In b S) by (apply in2; left; trivial).
    assert (In b (equalsOf f b (b :: t2)))
      by (apply equalsOf_self; trivial; left; trivial).
    rewrite <- same in H; trivial. destruct H.
  - assert (ia : In a S) by (apply in1; left; trivial).
    destruct l2 as [| b t2].
    + assert (In a (equalsOf f a (a :: t1)))
        by (apply equalsOf_self; trivial; left; trivial).
      rewrite same in H; trivial. destruct H.
    + assert (ib : In b S) by (apply in2; left; trivial).
      assert (a_in_2 : In a (b :: t2)).
      { assert (In a (equalsOf f a (a :: t1)))
          by (apply equalsOf_self; trivial; left; trivial).
        rewrite same in H; trivial. apply filter_In in H. tauto. }
      assert (b_in_1 : In b (a :: t1)).
      { assert (In b (equalsOf f b (b :: t2)))
          by (apply equalsOf_self; trivial; left; trivial).
        rewrite <- same in H; trivial. apply filter_In in H. tauto. }
      apply StronglySorted_inv in s1. destruct s1 as [s1 h1].
      apply StronglySorted_inv in s2. destruct s2 as [s2 h2].
      rewrite Forall_forall in h1, h2.
      assert (ab : a = b).
      { destruct a_in_2 as [e | a2]; [ auto |].
        destruct b_in_1 as [e | b1]; [ auto |].
        assert (e0 : f a b = 0)
          by (apply cf_le_antisym; trivial; [apply h1 | apply h2]; trivial).
        specialize (same a ia). unfold equalsOf in same. simpl in same.
        rewrite (cf_refl f S ok), e0 in same; trivial. simpl in same.
        congruence. }
      subst b. f_equal. apply IH; trivial.
      * intros x ix. apply in1. right; trivial.
      * intros x ix. apply in2. right; trivial.
      * intros x ix. specialize (same x ix).
        unfold equalsOf in *. simpl in same.
        destruct (f x a =? 0); congruence.
Qed.

End On.
End ComparefnFacts.

(** ** What the contract of [sort] gives for a consistent function *)

Section SortFacts.
Context `{ArraySort} {A : Type} (f : A -> A -> Z).

Lemma sort_In (l : list A) (a : A) : In a (sort f l) <-> In a l.
Proof.
  split; intro i.
  - apply Permutation_in with (sort f l); trivial.
    apply Permutation_sym, sort_permutation.
  - apply Permutation_in with l; trivial. apply sort_permutation.
Qed.

Lemma sort_length (l : list A) : List.length (sort f l) = List.length l.
Proof. symmetry. apply Permutation_length, sort_permutation. Qed.

Lemma sort_consistent (l : list A) :
  consistent f l -> consistent f (sort f l).
Proof. apply consistent_incl. intros a. apply sort_In. Qed.

(** Sorting what is sorted changes nothing. *)
Lemma sort_idempotent (l : list A) :
  consistent f l -> sort f (sort f l) = sort f l.
Proof.
  intro ok. pose proof (sort_consistent l ok) as ok'.
  apply (sorted_stable_unique f (sort f l) ok').
  - intros a. apply sort_In.
  - auto.
  - apply sort_sorted; trivial.
  - apply sort_sorted; trivial.
  - intros x ix. apply sort_stable; trivial.
Qed.

End SortFacts.

(** ** Insertion sort: an engine that meets the contract *)

Section Insertion.
Context {A : Type} (f : A -> A -> Z).

(** [x] goes before the first element it is not greater than. *)
Fixpoint insert (x : A) (l : list A) : list A :=
  match l with
  | [] => [x]
  | y :: l' => if f x y <=? 0 then x :: y :: l' else y :: insert x l'
  end.

(** The elements are inserted from the last to the first. *)
Fixpoint insertionSort (l : list A) : list A :=
  match l with
  | [] => []
  | x :: l' => insert x (insertionSort l')
  end.

Lemma insert_permutation (x : A) (l : list A) :
  Permutation (x :: l) (insert x l).
Proof.
  induction l as [| y l IH]; simpl; trivial.
  destruct (f x y <=? 0); trivial.
  apply perm_trans with (y :: x :: l); [ apply perm_swap |].
  apply perm_skip, IH.
Qed.

Lemma insertionSort_permutation (l : list A) :
  Permutation l (insertionSort l).
Proof.
  induction l as [| x l IH]; simpl; trivial.
  apply perm_trans with (x :: insertionSort l).
  - apply perm_skip, IH.
  - apply insert_permutation.
Qed.

Lemma insert_sorted (S : list A) (x : A) (l : list A) :
  consistent f S -> In x S -> (forall a, In a l -> In a S) ->
  sortedBy f l -> sortedBy f (insert x l).
Proof.
  intros ok ix sub. unfold sortedBy.
  induction l as [| y l IH]; intro s; simpl.
  - repeat constructor.
  - assert (iy : In y S) by (apply sub; left; trivial).
    pose proof s as s0.
    apply StronglySorted_inv in s. destruct s as [s h].
    destruct (Z.leb_spec (f x y) 0) as [le | gt].
    + constructor; trivial. constructor; trivial.
      rewrite Forall_forall in *. intros z iz.
      apply (cf_le_trans f S ok) with y; auto.
      apply sub. right; trivial.
    + constructor.
      * apply IH; trivial. intros a ia. apply sub. right; trivial.
      * rewrite Forall_forall in *. intros z iz.
        apply Permutation_in with (l' := x :: l) in iz;
          [| apply Permutation_sym, insert_permutation ].
        destruct iz as [e | iz]; [ subst z | auto ].
        assert (f y x < 0) by (apply (cf_gt_lt f S ok); trivial; lia).
        lia.
Qed.

Lemma insertionSort_sorted (l : list A) :
  consistent f l -> sortedBy f (insertionSort l).
Proof.
  intro ok.
  assert (gen : forall l', (forall a, In a l' -> In a l) ->
                           sortedBy f (insertionSort l')).
  { induction l' as [| x l' IH]; intro sub; simpl.
    - constructor.
    - apply insert_sorted with l; trivial.
      + apply sub. left; trivial.
      + intros a ia. apply sub. right.
        apply Permutation_in with (insertionSort l'); trivial.
        apply Permutation_sym, insertionSort_permutation.
      + apply IH. intros a ia. apply sub. right; trivial. }
  apply gen. auto.
Qed.

Lemma insert_equalsOf (S : list A) (z x : A) (l : list A) :
  consistent f S -> In z S -> In x S -> (forall a, In a l -> In a S) ->
  equalsOf f z (insert x l) = equalsOf f z (x :: l).
Proof.
  intros ok iz ix. induction l as [| y l IH]; intro sub; simpl; trivial.
  assert (iy : In y S) by (apply sub; left; trivial).
  destruct (Z.leb_spec (f x y) 0) as [le | gt]; trivial.
  simpl. rewrite IH by (intros a ia; apply sub; right; trivial).
  simpl.
  destruct (Z.eqb_spec (f z x) 0) as [zx | nzx];
    destruct (Z.eqb_spec (f z y) 0) as [zy | nzy]; trivial.
  assert (f x z = 0) by (apply (cf_sym f S ok); trivial).
  assert (f x y = 0) by (apply (cf_trans_eq f S ok) with z; trivial).
  lia.
Qed.

Lemma insertionSort_stable (l : list A) :
  consistent f l -> keepsOrderOfEquals f l (insertionSort l).
Proof.
  intros ok z iz.
  assert (gen : forall l', (forall a, In a l' -> In a l) ->
              equalsOf f z (insertionSort l') = equalsOf f z l').
  { induction l' as [| x l' IH]; intro sub; simpl; trivial.
    rewrite insert_equalsOf with (S := l); trivial.
    - simpl. rewrite IH; trivial. intros a ia. apply sub. right; trivial.
    - apply sub. left; trivial.
    - intros a ia. apply sub. right.
      apply Permutation_in with (insertionSort l'); trivial.
      apply Permutation_sym, insertionSort_permutation. }
  apply gen. auto.
Qed.

End Insertion.

Definition InsertionSort : ArraySort :=
  {| sort := @insertionSort;
     sort_permutation := @insertionSort_permutation;
     sort_sorted := @insertionSort_sorted;
     sort_stable := @insertionSort_stable |}.

(** ** Insertion from the left: a second engine

    Engines differ in the order in which they hand the two elements to
    the comparison function.  This one takes the elements from the first
    to the last and moves each one, the pivot, towards the front while
    [comparefn pivot e < 0] for the element [e] before it. *)

Section InsertionLeft.
Context {A : Type} (f : A -> A -> Z).

(** [sortedRev] is the sorted part, last element first. *)
Fixpoint place (pivot : A) (sortedRev : list A) : list A :=
  match sortedRev with
  | [] => [pivot]
  | e :: rest =>
      if f pivot e <? 0 then e :: place pivot rest
      else pivot :: e :: rest
  end.

Definition leftInsertionSort (l : list A) : list A :=
  rev (fold_left (fun sortedRev pivot => place pivot sortedRev) l []).

Definition opposite : A -> A -> Z := fun a b => - f a b.

Lemma place_insert (pivot : A) (sortedRev : list A) :
  place pivot sortedRev = insert opposite pivot sortedRev.
Proof.
  induction sortedRev as [| e rest IH]; simpl; trivial.
  unfold opposite at 1.
  destruct (Z.ltb_spec (f pivot e) 0) as [lt | ge];
    destruct (Z.leb_spec (- f pivot e) 0) as [le | gt]; try lia; trivial.
  rewrite IH. trivial.
Qed.

Lemma leftInsertionSort_insertionSort (l : list A) :
  leftInsertionSort l = rev (insertionSort opposite (rev l)).
Proof.
  unfold leftInsertionSort. f_equal.
  induction l as [| x l IH] using rev_ind; trivial.
  rewrite fold_left_app, rev_app_distr. simpl.
  rewrite IH. apply place_insert.
Qed.

Lemma leftInsertionSort_permutation (l : list A) :
  Permutation l (leftInsertionSort l).
Proof.
  rewrite leftInsertionSort_insertionSort.
  apply perm_trans with (rev l); [ apply Permutation_rev |].
  apply perm_trans with (insertionSort opposite (rev l)).
  - apply insertionSort_permutation.
  - apply Permutation_rev.
Qed.

Lemma opposite_consistent (S : list A) :
  consistent f S -> consistent opposite S.
Proof.
  intros ok. unfold opposite. constructor.
  - intros a ia. rewrite (cf_refl f S ok); trivial.
  - intros a b ia ib e.
    rewrite (cf_sym f S ok a b); trivial; lia.
  - intros a b c ia ib ic e1 e2.
    rewrite (cf_trans_eq f S ok a b c); trivial; lia.
  - intros a b c ia ib ic h1 h2.
    assert (f a c > 0)
      by (apply (cf_trans_gt f S ok) with b; trivial; lia).
    lia.
  - intros a b c ia ib ic h1 h2.
    assert (f a c < 0)
      by (apply (cf_trans_lt f S ok) with b; trivial; lia).
    lia.
Qed.

Lemma equalsOf_opposite (x : A) (l : list A) :
  equalsOf opposite x l = equalsOf f x l.
Proof.
  unfold equalsOf, opposite. apply filter_ext. intro y.
  destruct (Z.eqb_spec (- f x y) 0), (Z.eqb_spec (f x y) 0); trivial; lia.
Qed.

Lemma sortedBy_snoc (l : list A) (a : A) :
  sortedBy f l -> Forall (fun b => f b a <= 0) l -> sortedBy f (l ++ [a]).
Proof.
  unfold sortedBy. induction l as [| b l IH]; intros s all; simpl.
  - repeat constructor.
  - apply StronglySorted_inv in s. destruct s as [s h].
    apply Forall_cons_iff in all. destruct all as [ba all].
    constructor; [ apply IH; trivial |].
    apply Forall_app. split; trivial. constructor; trivial.
Qed.

(** A list sorted by the opposite function, read backwards, is sorted. *)
Lemma sortedBy_rev (S s : list A) :
  consistent f S -> (forall a, In a s -> In a S) ->
  sortedBy opposite s -> sortedBy f (rev s).
Proof.
  intros ok. induction s as [| a s IH]; intros sub so; simpl.
  - constructor.
  - apply StronglySorted_inv in so. destruct so as [so h].
    apply sortedBy_snoc.
    + apply IH; trivial. intros b ib. apply sub. right; trivial.
    + apply Forall_rev. rewrite Forall_forall in *. intros b ib.
      specialize (h b ib). unfold opposite in h.
      assert (ia' : In a S) by (apply sub; left; trivial).
      assert (ib' : In b S) by (apply sub; right; trivial).
      destruct (Z.eq_dec (f a b) 0) as [e | n].
      * rewrite (cf_sym f S ok a b); trivial. lia.
      * assert (f b a < 0) by (apply (cf_gt_lt f S ok); trivial; lia).
        lia.
Qed.

Lemma leftInsertionSort_sorted (l : list A) :
  consistent f l -> sortedBy f (leftInsertionSort l).
Proof.
  intro ok. rewrite leftInsertionSort_insertionSort.
  apply sortedBy_rev with l; trivial.
  - intros a ia. apply in_rev.
    apply Permutation_in with (insertionSort opposite (rev l)); trivial.
    apply Permutation_sym, insertionSort_permutation.
  - apply insertionSort_sorted, opposite_consistent.
    apply consistent_incl with l; trivial. intros a. apply in_rev.
Qed.

Lemma leftInsertionSort_stable (l : list A) :
  consistent f l -> keepsOrderOfEquals f l (leftInsertionSort l).
Proof.
  intros ok x ix. rewrite leftInsertionSort_insertionSort.
  assert (ok' : consistent opposite (rev l)).
  { apply opposite_consistent.
    apply consistent_incl with l; trivial. intros a. apply in_rev. }
  assert (ix' : In x (rev l)) by (apply in_rev in ix; exact ix).
  pose proof (insertionSort_stable opposite (rev l) ok' x ix') as st.
  rewrite !equalsOf_opposite in st. unfold equalsOf in *.
  rewrite filter_rev, st, filter_rev. apply rev_involutive.
Qed.

End InsertionLeft.

Definition LeftInsertionSort : ArraySort :=
  {| sort := @leftInsertionSort;
     sort_permutation := @leftInsertionSort_permutation;
     sort_sorted := @leftInsertionSort_sorted;
     sort_stable := @leftInsertionSort_stable |}.

(** ** Three-way comparison from [===] and [<] *)

Section ThreeWay.
Context {A : Type} (eqb ltb : A -> A -> bool) (dom : A -> Prop).

(** On the values [dom], [eqb] is an equivalence and [ltb] a strict
    order that is total up to [eqb]. *)
Hypothesis eqb_refl : forall a, dom a -> eqb a a = true.
Hypothesis eqb_sym : forall a b, dom a -> dom b -> eqb a b = eqb b a.
Hypothesis eqb_trans : forall a b c, dom a -> dom b -> dom c ->
    eqb a b = true -> eqb b c = true -> eqb a c = true.
Hypothesis ltb_trans : forall a b c, dom a -> dom b -> dom c ->
    ltb a b = true -> ltb b c = true -> ltb a c = true.
Hypothesis ltb_neq : forall a b, dom a -> dom b ->
    ltb a b = true -> eqb a b = false.
Hypothesis ltb_asym : forall a b, dom a -> dom b ->
    ltb a b = true -> ltb b a = false.
Hypothesis ltb_total : forall a b, dom a -> dom b ->
    eqb a b = false -> ltb a b = false -> ltb b a = true.

(** The shape of the comparison function of the table. *)
Definition threeWay (d : DataPreview.SortDirection) (a b : A) : Z :=
  if eqb a b then 0
  else
    let comparison := if ltb a b then -1 else 1 in
    match d with
    | DataPreview.asc => comparison
    | DataPreview.desc => - comparison
    end.

Lemma threeWay_zero d a b : threeWay d a b = 0 <-> eqb a b = true.
Proof.
  unfold threeWay.
  destruct (eqb a b), (ltb a b), d; simpl; split; intro; trivial; lia.
Qed.

(** [a] is before [b] in ascending order. *)
Definition before (a b : A) : Prop := eqb a b = false /\ ltb a b = true.

Lemma before_trans a b c :
  dom a -> dom b -> dom c -> before a b -> before b c -> before a c.
Proof.
  intros da db dc [_ ab] [_ bc].
  assert (ltb a c = true) by (apply ltb_trans with b; trivial).
  split; trivial. apply ltb_neq; trivial.
Qed.

Lemma not_before a b :
  dom a -> dom b -> eqb a b = false -> ltb a b = false -> before b a.
Proof.
  intros da db ne nl. split; [ rewrite eqb_sym; trivial |].
  apply ltb_total; trivial.
Qed.

Lemma threeWay_neg d a b :
  dom a -> dom b ->
  threeWay d a b < 0 <->
  match d with
  | DataPreview.asc => before a b
  | DataPreview.desc => before b a
  end.
Proof.
  intros da db. unfold threeWay, before.
  destruct (eqb a b) eqn:e.
  - split; [ lia |].
    destruct d; intros [ne _]; [| rewrite eqb_sym in ne; trivial ];
      congruence.
  - destruct (ltb a b) eqn:l; destruct d; simpl.
    + split; [ auto | lia ].
    + split; [ lia |]. intros [_ x]. apply ltb_asym in x; trivial.
      congruence.
    + split; [ lia |]. intros [_ x]. congruence.
    + split; [| lia ]. intros _. apply not_before; trivial.
Qed.

Lemma threeWay_pos d a b :
  dom a -> dom b ->
  threeWay d a b > 0 <->
  match d with
  | DataPreview.asc => before b a
  | DataPreview.desc => before a b
  end.
Proof.
  intros da db.
  pose proof (threeWay_neg d a b da db) as n.
  pose proof (threeWay_zero d a b) as z.
  assert (excl : before a b -> before b a -> False).
  { intros [_ x] [_ y]. apply ltb_asym in x; trivial. congruence. }
  assert (tot : eqb a b = true \/ before a b \/ before b a).
  { destruct (eqb a b) eqn:e; [ auto |]. right.
    destruct (ltb a b) eqn:l; [ left; split; trivial |].
    right. apply not_before; trivial. }
  assert (ne1 : before a b -> eqb a b = true -> False)
    by (intros [x _] y; congruence).
  assert (ne2 : before b a -> eqb a b = true -> False)
    by (intros [x _] y; rewrite eqb_sym in x; trivial; congruence).
  destruct d; split; intro h.
  - destruct tot as [t | [t | t]]; trivial.
    + apply z in t. lia.
    + apply n in t. lia.
  - destruct (Z.lt_trichotomy (threeWay DataPreview.asc a b) 0)
      as [c | [c | c]]; [ | | lia ].
    + apply n in c. destruct (excl c h).
    + apply z in c. destruct (ne2 h c).
  - destruct tot as [t | [t | t]]; trivial.
    + apply z in t. lia.
    + apply n in t. lia.
  - destruct (Z.lt_trichotomy (threeWay DataPreview.desc a b) 0)
      as [c | [c | c]]; [ | | lia ].
    + apply n in c. destruct (excl h c).
    + apply z in c. destruct (ne1 h c).
Qed.

Lemma threeWay_consistent d (S : list A) :
  Forall dom S -> consistent (threeWay d) S.
Proof.
  rewrite Forall_forall. intro all. constructor.
  - intros a ia. apply threeWay_zero, eqb_refl; auto.
  - intros a b ia ib e. apply threeWay_zero. rewrite eqb_sym; auto.
    apply threeWay_zero in e; trivial.
  - intros a b c ia ib ic e1 e2. apply threeWay_zero in e1, e2.
    apply threeWay_zero, eqb_trans with b; auto.
  - intros a b c ia ib ic h1 h2.
    apply threeWay_neg in h1, h2; auto. apply threeWay_neg; auto.
    destruct d; apply before_trans with b; auto.
  - intros a b c ia ib ic h1 h2.
    apply threeWay_pos in h1, h2; auto. apply threeWay_pos; auto.
    destruct d; apply before_trans with b; auto.
Qed.

End ThreeWay.

(** ** The order of strings *)

Section StringOrder.

Lemma N_of_ascii_inj (a b : ascii) : N_of_ascii a = N_of_ascii b -> a = b.
Proof.
  intro e. rewrite <- (ascii_N_embedding a), <- (ascii_N_embedding b).
  f_equal. exact e.
Qed.

Lemma str_ltb_trans (s t u : string) :
  Str.ltb s t = true -> Str.ltb t u = true -> Str.ltb s u = true.
Proof.
  revert t u. induction s as [| a s IH]; intros [| b t] [| c u]; simpl;
    try congruence.
  destruct (N.ltb_spec (N_of_ascii a) (N_of_ascii b)) as [ab | ab];
    destruct (N.ltb_spec (N_of_ascii b) (N_of_ascii c)) as [bc | bc];
    destruct (N.ltb_spec (N_of_ascii a) (N_of_ascii c)) as [ac | ac];
    trivial;
    destruct (N.eqb_spec (N_of_ascii a) (N_of_ascii b)) as [eab | nab];
    destruct (N.eqb_spec (N_of_ascii b) (N_of_ascii c)) as [ebc | nbc];
    destruct (N.eqb_spec (N_of_ascii a) (N_of_ascii c)) as [eac | nac];
    try congruence; try lia.
  apply IH.
Qed.

Lemma str_ltb_irrefl (s : string) : Str.ltb s s = false.
Proof.
  induction s as [| a s IH]; simpl; trivial.
  rewrite N.ltb_irrefl, N.eqb_refl. exact IH.
Qed.

Lemma str_ltb_neq (s t : string) :
  Str.ltb s t = true -> String.eqb s t = false.
Proof.
  intro lt. apply String.eqb_neq. intro e. subst t.
  rewrite str_ltb_irrefl in lt. discriminate.
Qed.

Lemma str_ltb_asym (s t : string) :
  Str.ltb s t = true -> Str.ltb t s = false.
Proof.
  intro lt. destruct (Str.ltb t s) eqn:e; trivial.
  pose proof (str_ltb_trans s t s lt e) as r.
  rewrite str_ltb_irrefl in r. discriminate.
Qed.

Lemma str_ltb_total (s t : string) :
  String.eqb s t = false -> Str.ltb s t = false -> Str.ltb t s = true.
Proof.
  revert t. induction s as [| a s IH]; intros [| b t]; simpl;
    try congruence.
  destruct (N.ltb_spec (N_of_ascii a) (N_of_ascii b)) as [ab | ab];
    [ congruence |].
  destruct (N.ltb_spec (N_of_ascii b) (N_of_ascii a)) as [ba | ba];
    trivial.
  assert (e : N_of_ascii a = N_of_ascii b) by lia.
  rewrite e, N.eqb_refl. apply N_of_ascii_inj in e. subst b.
  rewrite Ascii.eqb_refl. apply IH.
Qed.

End StringOrder.

(** * An implementation of the interfaces, to run the components

    [DecimalNum] implements [JsNumber] with exact decimal numbers
    [mant * 10 ^ expo].  Every double is such a number, and the numerals
    of a sheet are read and printed as the engine does wherever the
    engine does not round (numerals of up to 15 significant digits, within
    the range of the doubles). *)

Module DecimalNum.

Inductive dnum : Type :=
| DNaN
| DInf (negative : bool)
| DFin (mant expo : Z).

Definition value (m e : Z) : Q := (inject_Z m * (10 # 1) ^ e)%Q.

Definition eqb (a b : dnum) : bool :=
  match a, b with
  | DFin m e, DFin m' e' => Qeq_bool (value m e) (value m' e')
  | DInf s, DInf s' => Bool.eqb s s'
  | _, _ => false
  end.

Definition ltb (a b : dnum) : bool :=
  match a, b with
  | DNaN, _ => false
  | _, DNaN => false
  | DInf true, DInf true => false
  | DInf true, _ => true
  | DInf false, _ => false
  | DFin _ _, DInf negative => negb negative
  | DFin m e, DFin m' e' => negb (Qle_bool (value m' e') (value m e))
  end.

(** *** Reading a numeral: [StringToNumber] *)

(** White space and line terminators, among the code units below 256. *)
Definition isWhite (c : ascii) : bool :=
  let n := N_of_ascii c in
  ((n =? 9) || (n =? 10) || (n =? 11) || (n =? 12) || (n =? 13)
   || (n =? 32) || (n =? 160))%N.

Fixpoint trimStart (s : list ascii) : list ascii :=
  match s with
  | c :: s' => if isWhite c then trimStart s' else s
  | [] => []
  end.

Definition trim (s : list ascii) : list ascii :=
  rev (trimStart (rev (trimStart s))).

(** The value of a digit in a radix up to 16. *)
Definition digitIn (radix : Z) (c : ascii) : option Z :=
  let n := Z.of_N (N_of_ascii c) in
  let d := if (48 <=? n) && (n <=? 57) then n - 48
           else if (97 <=? n) && (n <=? 102) then n - 87
           else if (65 <=? n) && (n <=? 70) then n - 55
           else 16 in
  if d <? radix then Some d else None.

(** The longest run of digits at the head of [s]: its value, its
    length, and what follows. *)
Fixpoint digitsFrom (radix : Z) (acc : Z) (count : Z) (s : list ascii)
  : Z * Z * list ascii :=
  match s with
  | c :: s' =>
      match digitIn radix c with
      | Some d => digitsFrom radix (acc * radix + d) (count + 1) s'
      | None => (acc, count, s)
      end
  | [] => (acc, count, [])
  end.

Definition digits (radix : Z) (s : list ascii) : Z * Z * list ascii :=
  digitsFrom radix 0 0 s.

(** A run of digits and nothing else ([0x..], [0o..], [0b..]). *)
Definition radixLiteral (radix : Z) (s : list ascii) : dnum :=
  match digits radix s with
  | (v, count, []) => if 0 <? count then DFin v 0 else DNaN
  | _ => DNaN
  end.

(** [ExponentPart], optional: [e] or [E], a sign, digits. *)
Definition exponent (s : list ascii) : option Z :=
  match s with
  | [] => Some 0
  | c :: s' =>
      if (Ascii.eqb c "e" || Ascii.eqb c "E")%char then
        let '(negative, s'') :=
          match s' with
          | "-"%char :: r => (true, r)
          | "+"%char :: r => (false, r)
          | _ => (false, s')
          end in
        match digits 10 s'' with
        | (v, count, []) =>
            if 0 <? count then Some (if negative then - v else v)
            else None
        | _ => None
        end
      else None
  end.

(** [StrUnsignedDecimalLiteral], [Infinity] apart. *)
Definition unsignedDecimal (negative : bool) (s : list ascii) : dnum :=
  let '(ip, ni, r) := digits 10 s in
  let '(fp, nf, r') :=
    match r with
    | "."%char :: t => digits 10 t
    | _ => (0, 0, r)
    end in
  if (ni =? 0) && (nf =? 0) then DNaN
  else
    match exponent r' with
    | Some e =>
        let m := ip * 10 ^ nf + fp in
        DFin (if negative then - m else m) (e - nf)
    | None => DNaN
    end.

Definition infinityText : list ascii :=
  list_ascii_of_string "Infinity".

Definition signedDecimal (s : list ascii) : dnum :=
  let '(negative, r) :=
    match s with
    | "-"%char :: r => (true, r)
    | "+"%char :: r => (false, r)
    | _ => (false, s)
    end in
  if list_eq_dec ascii_dec r infinityText then DInf negative
  else unsignedDecimal negative r.

Definition ofString (text : string) : dnum :=
  match trim (list_ascii_of_string text) with
  | [] => DFin 0 0
  | "0"%char :: c :: r =>
      if (Ascii.eqb c "x" || Ascii.eqb c "X")%char then radixLiteral 16 r
      else if (Ascii.eqb c "o" || Ascii.eqb c "O")%char then radixLiteral 8 r
      else if (Ascii.eqb c "b" || Ascii.eqb c "B")%char then radixLiteral 2 r
      else signedDecimal ("0"%char :: c :: r)
  | s => signedDecimal s
  end.

(** *** Printing: [Number::toString] *)

Definition zeros (n : Z) : list ascii := repeat "0"%char (Z.to_nat n).

(** The decimal digits of a natural number. *)
Definition text (z : Z) : list ascii :=
  list_ascii_of_string (NilZero.string_of_uint (N.to_uint (Z.to_N z))).

Fixpoint dropZeros (s : list ascii) : list ascii :=
  match s with
  | c :: s' => if Ascii.eqb c "0" then dropZeros s' else s
  | [] => []
  end.

(** With [k] significant digits [ds] and the decimal point after the
    [n]-th of them: plain digits when [k <= n <= 21], a decimal point
    inside when [0 < n <= 21], leading zeros when [-6 < n <= 0], and
    the exponent form otherwise. *)
Definition finiteToString (m e : Z) : list ascii :=
  if m =? 0 then ["0"%char]
  else
    let ds0 := text (Z.abs m) in
    let ds := rev (dropZeros (rev ds0)) in
    let k := Z.of_nat (List.length ds) in
    let n := Z.of_nat (List.length ds0) + e in
    let body :=
      if (k <=? n) && (n <=? 21) then ds ++ zeros (n - k)
      else if (0 <? n) && (n <=? 21)
      then firstn (Z.to_nat n) ds ++ "."%char :: skipn (Z.to_nat n) ds
      else if (-6 <? n) && (n <=? 0)
      then "0"%char :: "."%char :: zeros (- n) ++ ds
      else
        let ex := n - 1 in
        let exps :=
          (if ex <? 0 then "-"%char else "+"%char) :: text (Z.abs ex) in
        match ds with
        | [] => []
        | [d] => d :: "e"%char :: exps
        | d :: rest => d :: "."%char :: rest ++ "e"%char :: exps
        end in
    if m <? 0 then "-"%char :: body else body.

Definition toString (x : dnum) : string :=
  match x with
  | DNaN => "NaN"
  | DInf false => "Infinity"
  | DInf true => "-Infinity"
  | DFin m e => string_of_list_ascii (finiteToString m e)
  end.

(** *** The laws *)

Lemma Qle_bool_false (x y : Q) : Qle_bool x y = false <-> (y < x)%Q.
Proof.
  split; intro h.
  - apply Qnot_le_lt. intro le. apply Qle_bool_iff in le. congruence.
  - destruct (Qle_bool x y) eqn:e; trivial.
    apply Qle_bool_iff in e. apply Qlt_not_le in h. tauto.
Qed.

Lemma ltb_fin (m e m' e' : Z) :
  ltb (DFin m e) (DFin m' e') = true <-> (value m e < value m' e')%Q.
Proof.
  simpl. rewrite negb_true_iff. apply Qle_bool_false.
Qed.

Lemma eqb_fin (m e m' e' : Z) :
  eqb (DFin m e) (DFin m' e') = true <-> (value m e == value m' e')%Q.
Proof. simpl. apply Qeq_bool_iff. Qed.

Lemma eqb_sym (x y : dnum) : eqb x y = eqb y x.
Proof.
  destruct x as [| s | m e], y as [| s' | m' e']; simpl; trivial.
  - destruct s, s'; trivial.
  - apply Qeq_bool_comm.
Qed.

Lemma eqb_trans (x y z : dnum) :
  eqb x y = true -> eqb y z = true -> eqb x z = true.
Proof.
  destruct x as [| s | m e], y as [| s' | m' e'], z as [| s'' | m'' e''];
    simpl; try congruence.
  - destruct s, s', s''; simpl; congruence.
  - apply Qeq_bool_trans.
Qed.

Lemma ltb_trans (x y z : dnum) :
  ltb x y = true -> ltb y z = true -> ltb x z = true.
Proof.
  destruct x as [| [|] | m e], y as [| [|] | m' e'], z as [| [|] | m'' e''];
    try (simpl; congruence).
  rewrite !ltb_fin. apply Qlt_trans.
Qed.

Lemma ltb_neq (x y : dnum) : ltb x y = true -> eqb x y = false.
Proof.
  destruct x as [| [|] | m e], y as [| [|] | m' e'];
    try (simpl; congruence).
  rewrite ltb_fin. intro lt.
  destruct (eqb (DFin m e) (DFin m' e')) eqn:q; trivial.
  apply eqb_fin in q. apply Qlt_not_eq in lt. tauto.
Qed.

Lemma ltb_asym (x y : dnum) : ltb x y = true -> ltb y x = false.
Proof.
  destruct x as [| [|] | m e], y as [| [|] | m' e'];
    try (simpl; congruence).
  rewrite ltb_fin. intro lt.
  destruct (ltb (DFin m' e') (DFin m e)) eqn:q; trivial.
  apply ltb_fin in q. apply Qlt_le_weak, Qle_not_lt in lt. tauto.
Qed.

Lemma ltb_total (x y : dnum) :
  eqb x x = true -> eqb y y = true ->
  eqb x y = false -> ltb x y = false -> ltb y x = true.
Proof.
  destruct x as [| [|] | m e], y as [| [|] | m' e'];
    try (simpl; congruence).
  intros _ _ ne nl. apply ltb_fin.
  simpl in nl. rewrite negb_false_iff in nl. apply Qle_bool_iff in nl.
  apply Qle_lteq in nl. destruct nl as [lt | q]; trivial.
  apply Qeq_sym, eqb_fin in q. congruence.
Qed.

Lemma ltb_nan_l (x y : dnum) : eqb x x = false -> ltb x y = false.
Proof.
  destruct x as [| [|] | m e]; simpl; trivial; try congruence.
  rewrite Qeq_bool_refl. congruence.
Qed.

Lemma ltb_nan_r (x y : dnum) : eqb y y = false -> ltb x y = false.
Proof.
  destruct y as [| [|] | m e]; simpl; try congruence.
  - destruct x as [| [|] |]; trivial.
  - rewrite Qeq_bool_refl. congruence.
Qed.

End DecimalNum.

Definition DecimalNumber : JsNumber DecimalNum.dnum :=
  {| num_nan := DecimalNum.DNaN;
     num_zero := DecimalNum.DFin 0 0;
     num_one := DecimalNum.DFin 1 0;
     num_eqb := DecimalNum.eqb;
     num_ltb := DecimalNum.ltb;
     num_toString := DecimalNum.toString;
     num_ofString := DecimalNum.ofString;
     num_eqb_sym := DecimalNum.eqb_sym;
     num_eqb_trans := DecimalNum.eqb_trans;
     num_nan_neq := eq_refl;
     num_zero_eq := eq_refl;
     num_one_eq := eq_refl;
     num_ltb_trans := DecimalNum.ltb_trans;
     num_ltb_neq := DecimalNum.ltb_neq;
     num_ltb_asym := DecimalNum.ltb_asym;
     num_ltb_total := DecimalNum.ltb_total;
     num_ltb_nan_l := DecimalNum.ltb_nan_l;
     num_ltb_nan_r := DecimalNum.ltb_nan_r;
     num_zero_lt_one := eq_refl;
     num_ofString_empty := eq_refl |}.

(** * The table: search, sort and paging *)

Section Table.
Import Js DataPreview.
Context {num : Type} `{JsNumber num}.

(** ** Columns on which the comparison function is consistent *)

Definition isText (v : JsValue num) : bool :=
  match v with
  | VString _ => true
  | _ => false
  end.

(** A number other than NaN. *)
Definition isOrderedNumber (v : JsValue num) : bool :=
  match v with
  | VNumber n => num_eqb n n
  | _ => false
  end.

(** Every row holds a text in the column, or every row holds a number
    other than NaN. *)
Definition uniformColumn (columnIndex : Z) (rows : list (@Row num))
  : bool :=
  forallb (fun row => isText (get row columnIndex)) rows
  || forallb (fun row => isOrderedNumber (get row columnIndex)) rows.

Lemma comparefn_text_consistent columnIndex d (rows : list (@Row num)) :
  forallb (fun row => isText (get row columnIndex)) rows = true ->
  consistent (comparefn columnIndex d) rows.
Proof.
  intro all. rewrite forallb_forall in all.
  apply (threeWay_consistent
           (fun a b => strictEq (get a columnIndex) (get b columnIndex))
           (fun a b => lessThan (get a columnIndex) (get b columnIndex))
           (fun row => isText (get row columnIndex) = true)).
  - intros a da. destruct (get a columnIndex); try discriminate.
    simpl. apply String.eqb_refl.
  - intros a b da db.
    destruct (get a columnIndex), (get b columnIndex); try discriminate.
    simpl. apply String.eqb_sym.
  - intros a b c da db dc.
    destruct (get a columnIndex), (get b columnIndex), (get c columnIndex);
      try discriminate.
    simpl. rewrite !String.eqb_eq. congruence.
  - intros a b c da db dc.
    destruct (get a columnIndex), (get b columnIndex), (get c columnIndex);
      try discriminate.
    simpl. apply str_ltb_trans.
  - intros a b da db.
    destruct (get a columnIndex), (get b columnIndex); try discriminate.
    simpl. apply str_ltb_neq.
  - intros a b da db.
    destruct (get a columnIndex), (get b columnIndex); try discriminate.
    simpl. apply str_ltb_asym.
  - intros a b da db.
    destruct (get a columnIndex), (get b columnIndex); try discriminate.
    simpl. apply str_ltb_total.
  - apply Forall_forall. exact all.
Qed.

Lemma comparefn_number_consistent columnIndex d (rows : list (@Row num)) :
  forallb (fun row => isOrderedNumber (get row columnIndex)) rows = true ->
  consistent (comparefn columnIndex d) rows.
Proof.
  intro all. rewrite forallb_forall in all.
  apply (threeWay_consistent
           (fun a b => strictEq (get a columnIndex) (get b columnIndex))
           (fun a b => lessThan (get a columnIndex) (get b columnIndex))
           (fun row => isOrderedNumber (get row columnIndex) = true)).
  - intros a da. destruct (get a columnIndex); try discriminate.
    exact da.
  - intros a b da db.
    destruct (get a columnIndex), (get b columnIndex); try discriminate.
    simpl. apply num_eqb_sym.
  - intros a b c da db dc.
    destruct (get a columnIndex), (get b columnIndex), (get c columnIndex);
      try discriminate.
    simpl. apply num_eqb_trans.
  - intros a b c da db dc.
    destruct (get a columnIndex), (get b columnIndex), (get c columnIndex);
      try discriminate.
    simpl. apply num_ltb_trans.
  - intros a b da db.
    destruct (get a columnIndex), (get b columnIndex); try discriminate.
    simpl. apply num_ltb_neq.
  - intros a b da db.
    destruct (get a columnIndex), (get b columnIndex); try discriminate.
    simpl. apply num_ltb_asym.
  - intros a b da db.
    destruct (get a columnIndex), (get b columnIndex); try discriminate.
    simpl. apply num_ltb_total; trivial.
  - apply Forall_forall. exact all.
Qed.

Lemma comparefn_consistent columnIndex d (rows : list (@Row num)) :
  uniformColumn columnIndex rows = true ->
  consistent (comparefn columnIndex d) rows.
Proof.
  unfold uniformColumn. intro u. apply orb_true_iff in u.
  destruct u as [t | n].
  - apply comparefn_text_consistent; trivial.
  - apply comparefn_number_consistent; trivial.
Qed.

End Table.

(** ** Facts on the helpers of the search *)

Section SearchFacts.
Import Js.

Lemma nonEmpty_false (s : string) : Str.nonEmpty s = false <-> s = "".
Proof. destruct s; simpl; split; congruence. Qed.

Lemma prefix_spec (t s : string) :
  String.prefix t s = true <-> exists post, s = (t ++ post)%string.
Proof.
  revert s. induction t as [| a t IH]; intros [| b s]; simpl.
  - split; [ intros _; exists ""; reflexivity | reflexivity ].
  - split; [ intros _; exists (String b s); reflexivity | reflexivity ].
  - split; [ discriminate | intros [post e]; discriminate ].
  - destruct (ascii_dec a b) as [e | n].
    + subst b. rewrite IH. split; intros [post e]; exists post.
      * congruence.
      * injection e. trivial.
    + split; [ discriminate |]. intros [post e]. congruence.
Qed.

(** [includes] finds the text exactly when it occurs. *)
Lemma includes_spec (s t : string) :
  Str.includes s t = true <->
  exists pre post, s = (pre ++ t ++ post)%string.
Proof.
  induction s as [| c s IH].
  - cbn [Str.includes]. rewrite orb_false_r, prefix_spec. split.
    + intros [post e]. exists "", post. exact e.
    + intros [pre [post e]]. destruct pre; [| discriminate ].
      exists post. exact e.
  - cbn [Str.includes]. rewrite orb_true_iff, IH, prefix_spec. split.
    + intros [[post e] | [pre [post e]]].
      * exists "", post. exact e.
      * exists (String c pre), post. simpl. congruence.
    + intros [[| c' pre] [post e]].
      * left. exists post. exact e.
      * right. exists pre, post. simpl in e. congruence.
Qed.

Lemma some_spec {num : Type} (p : JsValue num -> bool) (row : @Row num) :
  some p row = true <-> exists v, In (Some v) row /\ p v = true.
Proof.
  unfold some. rewrite existsb_exists. split.
  - intros [[v |] [i h]]; [| discriminate ]. exists v. auto.
  - intros [v [i h]]. exists (Some v). auto.
Qed.

End SearchFacts.

(** ** The claims on the table *)

Section TableClaims.
Import Js DataPreview.
Context {num : Type} `{JsNumber num} `{ArraySort}.

(** C1.  With [showAllRows] off, the visible rows are the first ten of
    the matched and sorted rows, so at most ten, and the truncation note
    is shown exactly when more than ten rows matched; with
    [showAllRows] on, the visible rows are all the matched and sorted
    rows, as many as matched, and the note is not shown.  The matched
    and sorted rows do not depend on [showAllRows]. *)
Theorem view_paging (data : list (@Row num)) (headers : list string)
        (term : string) (column : option string) (d : SortDirection) :
  let st := fun showAll =>
    {| showAllRows := showAll; searchTerm := term;
       sortColumn := column; sortDirection := d |} in
  let matched := filteredAndSortedData data headers (st false) in
  filteredAndSortedData data headers (st true) = matched
  /\ visibleRows (view data headers (st false)) = firstn 10 matched
  /\ (List.length (visibleRows (view data headers (st false))) <= 10)%nat
  /\ totalMatched (view data headers (st false)) = List.length matched
  /\ isTruncated (view data headers (st false))
     = (10 <? List.length matched)%nat
  /\ visibleRows (view data headers (st true)) = matched
  /\ List.length (visibleRows (view data headers (st true)))
     = totalMatched (view data headers (st true))
  /\ isTruncated (view data headers (st true)) = false.
Proof.
  intros st matched. subst st matched.
  unfold view, previewRows, showsTruncationNote, hasMoreRows,
    maxPreviewRows.
  cbn [visibleRows totalMatched isTruncated showAllRows].
  repeat split; try reflexivity.
  - apply firstn_le_length.
  - apply andb_true_r.
  - apply andb_false_r.
Qed.

(** The flag [hasMoreRows] itself does not look at [showAllRows]: it
    keeps the toggle enabled while all rows are shown. *)
Lemma hasMoreRows_spec (data : list (@Row num)) (headers : list string)
      (st : State) :
  hasMoreRows data headers st
  = (10 <? List.length (filteredAndSortedData data headers st))%nat.
Proof. reflexivity. Qed.

(** The sorted rows are the matched rows in another order. *)
Lemma filteredAndSortedData_In data headers st (row : @Row num) :
  In row (filteredAndSortedData data headers st)
  <-> In row (filteredData data st).
Proof.
  unfold filteredAndSortedData.
  destruct (sortColumnSet st); [ apply sort_In | tauto ].
Qed.

(** C8.  A row is among the matched rows exactly when it is a row of the
    data and either the search term is empty or one of its cells, as
    lower-case text, contains the lower-case term as a substring. *)
Theorem search_matches_iff (data : list (@Row num)) (headers : list string)
        (st : State) (row : @Row num) :
  In row (filteredAndSortedData data headers st)
  <-> In row data
      /\ (searchTerm st = ""
          \/ exists cell pre post,
              In (Some cell) row
              /\ Str.toLowerCase (ToString cell)
                 = (pre ++ Str.toLowerCase (searchTerm st) ++ post)%string).
Proof.
  rewrite filteredAndSortedData_In. unfold filteredData.
  destruct (Str.nonEmpty (searchTerm st)) eqn:ne.
  - rewrite filter_In. unfold matches. rewrite some_spec.
    split; intros [i h]; split; trivial.
    + right. destruct h as [cell [ic inc]].
      apply includes_spec in inc. destruct inc as [pre [post e]].
      exists cell, pre, post. auto.
    + destruct h as [e | [cell [pre [post [ic e]]]]].
      * apply nonEmpty_false in e. congruence.
      * exists cell. split; trivial. apply includes_spec.
        exists pre, post. trivial.
  - apply nonEmpty_false in ne. tauto.
Qed.

(** With a sort column set, the rows shown are the matched rows, sorted
    by the comparison function of that column and direction. *)
Lemma filteredAndSortedData_sort data headers st (c : string) :
  sortColumnSet st = Some c ->
  filteredAndSortedData data headers st
  = sort (comparefn (indexOf headers c) (sortDirection st))
         (filteredData data st).
Proof. unfold filteredAndSortedData. intro e. rewrite e. reflexivity. Qed.

(** With an empty cell and a number in the column, the comparison
    function is not consistent, whatever the direction: neither value is
    less than the other, and they are not equal. *)
Lemma comparefn_not_consistent_with_empty_cell
      (a b : @Row num) (columnIndex : Z) (d : SortDirection) (n : num) :
  get a columnIndex = VUndefined -> get b columnIndex = VNumber n ->
  ~ consistent (comparefn columnIndex d) [a; b].
Proof.
  intros ea eb ok.
  assert (ia : In a [a; b]) by (left; trivial).
  assert (ib : In b [a; b]) by (right; left; trivial).
  assert (ab : comparefn columnIndex asc a b = 1).
  { unfold comparefn. rewrite ea, eb. simpl.
    rewrite num_ltb_nan_l; trivial. apply num_nan_neq. }
  assert (ba : comparefn columnIndex asc b a = 1).
  { unfold comparefn. rewrite ea, eb. simpl.
    rewrite num_ltb_nan_r; trivial. apply num_nan_neq. }
  destruct d.
  - pose proof (cf_gt_lt _ _ ok a b ia ib) as h. lia.
  - assert (ab' : comparefn columnIndex desc a b = -1).
    { unfold comparefn in *. rewrite ea, eb in *. simpl in *.
      destruct (num_ltb num_nan n); [ discriminate | reflexivity ]. }
    assert (ba' : comparefn columnIndex desc b a = -1).
    { unfold comparefn in *. rewrite ea, eb in *. simpl in *.
      destruct (num_ltb n num_nan); [ discriminate | reflexivity ]. }
    pose proof (cf_lt_gt _ _ ok a b ia ib) as h. lia.
Qed.

(** C4, as the code has it.  When the sort column holds a text in every
    row, or a number other than NaN in every row, the rows come out
    sorted, the rows whose keys compare equal keep their order, and
    sorting the sorted rows again by the same column and direction
    changes nothing.  (On a column that mixes kinds of values, or has
    empty cells, the comparison function is not consistent and the
    order is the engine's choice.) *)
Theorem sort_stable_idempotent_on_uniform_column
        (rows : list (@Row num)) (columnIndex : Z) (d : SortDirection) :
  uniformColumn columnIndex rows = true ->
  let once := sort (comparefn columnIndex d) rows in
  sortedBy (comparefn columnIndex d) once
  /\ keepsOrderOfEquals (comparefn columnIndex d) rows once
  /\ sort (comparefn columnIndex d) once = once.
Proof.
  intros u once. apply (comparefn_consistent columnIndex d) in u.
  split; [| split ].
  - apply sort_sorted; trivial.
  - apply sort_stable; trivial.
  - apply sort_idempotent; trivial.
Qed.

(** The values the language holds falsy. *)
Lemma falsy_values :
  ToBoolean (VNumber num_zero) = false
  /\ ToBoolean (VNumber num_nan) = false
  /\ ToBoolean (@VBoolean num false) = false
  /\ ToBoolean (@VString num "") = false
  /\ ToBoolean (@VNull num) = false
  /\ ToBoolean (@VUndefined num) = false.
Proof.
  simpl. unfold num_isNaN. rewrite num_zero_eq, num_nan_neq. simpl.
  rewrite orb_true_r. tauto.
Qed.

(** C10.  A cell whose value is falsy shows the placeholder ["-"], the
    same content as a cell the row does not have. *)
Theorem falsy_cell_shows_placeholder (row : @Row num) (colIndex : Z) :
  ToBoolean (get row colIndex) = false ->
  cellContent row colIndex = VString "-"
  /\ cellContent row colIndex = cellContent [] colIndex.
Proof.
  intro f. unfold cellContent. rewrite f. split; trivial.
  unfold get. destruct (colIndex <? 0); trivial.
  destruct (Z.to_nat colIndex); trivial.
Qed.

End TableClaims.

(** * The chart *)

Section ChartFacts.
Import Js ChartGenerator.
Context {num : Type} `{JsNumber num}.

(** [name] is one of the headers. *)
Definition hasColumn (headers : list string) (name : string) : bool :=
  existsb (fun h => String.eqb h name) headers.

Lemma hasColumn_In headers name :
  hasColumn headers name = true <-> In name headers.
Proof.
  unfold hasColumn. rewrite existsb_exists. split.
  - intros [h [i e]]. apply String.eqb_eq in e. congruence.
  - intro i. exists name. split; trivial. apply String.eqb_refl.
Qed.

(** [indexOf] answers -1 for a name that is not a header, and a
    position otherwise. *)
Lemma indexOf_cases headers name :
  (indexOf headers name = -1 /\ hasColumn headers name = false)
  \/ (0 <= indexOf headers name /\ hasColumn headers name = true).
Proof.
  induction headers as [| h rest IH]; simpl; [ auto |].
  destruct (String.eqb h name); simpl; [ right; split; [ lia | trivial ] |].
  destruct IH as [[i c] | [i c]]; rewrite i || idtac.
  - left. auto.
  - right. destruct (Z.ltb_spec (indexOf rest name) 0); split; trivial; lia.
Qed.

Lemma indexOf_missing headers name :
  (indexOf headers name =? -1) = negb (hasColumn headers name).
Proof.
  destruct (indexOf_cases headers name) as [[i c] | [i c]]; rewrite c; simpl.
  - rewrite i. trivial.
  - apply Z.eqb_neq. lia.
Qed.

(** The values the filter of the Y column keeps: a number other than
    NaN, a boolean, and a text that is not empty and reads as a number
    other than NaN. *)
Definition coerces (v : JsValue num) : bool :=
  match v with
  | VNumber n => negb (num_isNaN n)
  | VBoolean _ => true
  | VString s => Str.nonEmpty s && negb (num_isNaN (num_ofString s))
  | VNull => false
  | VUndefined => false
  end.

Lemma isNumericY_coerces (v : JsValue num) : isNumericY v = coerces v.
Proof.
  unfold isNumericY, isNaN, num_isNaN.
  destruct v as [| | [|] | n | s]; simpl.
  - rewrite num_nan_neq. trivial.
  - rewrite num_zero_eq. trivial.
  - rewrite num_one_eq. trivial.
  - rewrite num_zero_eq. trivial.
  - rewrite !andb_true_r. trivial.
  - rewrite andb_true_r. destruct s; simpl.
    + apply andb_false_r.
    + apply andb_true_r.
Qed.

Lemma filter_length_zero {A : Type} (p : A -> bool) (l : list A) :
  (List.length (filter p l) =? 0)%nat = true
  <-> forall x, In x l -> p x = false.
Proof.
  induction l as [| a l IH]; simpl.
  - split; [ intros _ x [] | trivial ].
  - destruct (p a) eqn:pa; simpl.
    + split; [ discriminate |]. intro all.
      rewrite all in pa by (left; trivial). discriminate.
    + rewrite IH. split.
      * intros all x [e | i]; [ subst x; trivial | auto ].
      * intros all x i. apply all. right; trivial.
Qed.

Lemma no_numeric_iff (data : list (@Row num)) (yIndex : Z) :
  (List.length (numericYValues data yIndex) =? 0)%nat = true
  <-> forall row, In row data -> coerces (get row yIndex) = false.
Proof.
  unfold numericYValues, column. rewrite filter_length_zero. split.
  - intros all row i. rewrite <- isNumericY_coerces. apply all.
    apply in_map with (f := fun row => get row yIndex) in i. exact i.
  - intros all v i. apply in_map_iff in i. destruct i as [row [e i]].
    subst v. rewrite isNumericY_coerces. auto.
Qed.

(** C2, as the code has it.  The memo fails with the message "no numeric
    data" exactly when both axes are chosen and are headers, there are
    rows, and no value of the Y column coerces; that is so for every
    chart type, [pie] included.  A value coerces when it is a number
    other than NaN (an infinity coerces), a boolean, or a text that is
    not empty and reads as a number other than NaN; [null] and an empty
    cell do not. *)
Theorem no_numeric_data_iff (data : list (@Row num)) (headers : list string)
        (xAxis yAxis : string) (chartType : ChartType) :
  chartData data headers xAxis yAxis chartType
  = Build_Outcome None (Some noNumericDataMessage)
  <-> Str.nonEmpty xAxis = true
      /\ Str.nonEmpty yAxis = true
      /\ (0 < List.length data)%nat
      /\ hasColumn headers xAxis = true
      /\ hasColumn headers yAxis = true
      /\ forall row, In row data ->
                     coerces (get row (indexOf headers yAxis)) = false.
Proof.
  unfold chartData. rewrite !indexOf_missing.
  destruct (Str.nonEmpty xAxis); simpl;
    [| split; [ discriminate | intros [e _]; discriminate ] ].
  destruct (Str.nonEmpty yAxis); simpl;
    [| split; [ discriminate | intros [_ [e _]]; discriminate ] ].
  destruct (Nat.eqb_spec (List.length data) 0) as [z | nz];
    [ split; [ discriminate | intros [_ [_ [e _]]]; lia ] |].
  destruct (hasColumn headers xAxis); simpl;
    [| split; [ discriminate | intros [_ [_ [_ [e _]]]]; discriminate ] ].
  destruct (hasColumn headers yAxis); simpl;
    [| split; [ discriminate | intros [_ [_ [_ [_ [e _]]]]]; discriminate ] ].
  destruct (List.length (numericYValues data (indexOf headers yAxis)) =? 0)%nat
    eqn:none.
  - pose proof (proj1 (no_numeric_iff _ _) none) as all.
    split; trivial. intros _. repeat split; trivial. lia.
  - split; [ discriminate |]. intros [_ [_ [_ [_ [_ all]]]]].
    pose proof (proj2 (no_numeric_iff _ _) all) as some. congruence.
Qed.

(** C3, as the code has it.  When an axis names a column that the
    headers do not have, the memo returns [null] and does not call
    [setError]: no chart is drawn and the error shown, if any, stays as
    it was. *)
Theorem missing_column_yields_no_chart
        (data : list (@Row num)) (headers : list string)
        (xAxis yAxis : string) (chartType : ChartType)
        (error : option string) :
  hasColumn headers xAxis && hasColumn headers yAxis = false ->
  chartData data headers xAxis yAxis chartType = Build_Outcome None None
  /\ chartProps data headers xAxis yAxis chartType = None
  /\ errorAfter error (chartData data headers xAxis yAxis chartType)
     = error.
Proof.
  intro missing.
  assert (e : chartData data headers xAxis yAxis chartType
              = Build_Outcome None None).
  { unfold chartData. rewrite !indexOf_missing.
    destruct (negb (Str.nonEmpty xAxis) || negb (Str.nonEmpty yAxis)
              || (List.length data =? 0)%nat); trivial.
    rewrite <- negb_andb, missing. trivial. }
  unfold chartProps. rewrite e. auto.
Qed.

(** [o.a.b...] *)
Fixpoint fieldAt (path : list string) (o : Json num) : option (Json num) :=
  match path with
  | [] => Some o
  | name :: rest =>
      match field name o with
      | Some o' => fieldAt rest o'
      | None => None
      end
  end.

(** C6, as the code has it.  Whenever a chart is drawn, of any type,
    [pie] included, the layout handed to the widget carries the title
    "Y vs X", the X axis title X and the Y axis title Y. *)
Theorem layout_carries_titles
        (data : list (@Row num)) (headers : list string)
        (xAxis yAxis : string) (chartType : ChartType)
        (drawn : list (Json num)) (l : Json num) :
  chartProps data headers xAxis yAxis chartType = Some (drawn, l) ->
  fieldAt ["title"; "text"] l = Some (str (yAxis ++ " vs " ++ xAxis)%string)
  /\ fieldAt ["xaxis"; "title"] l = Some (str xAxis)
  /\ fieldAt ["yaxis"; "title"] l = Some (str yAxis).
Proof.
  unfold chartProps.
  destruct (traces (chartData data headers xAxis yAxis chartType));
    [| discriminate ].
  intro e. injection e as _ e. subst l. auto.
Qed.

End ChartFacts.

(** * The upload *)

Section UploadFacts.
Import Js FileUpload.
Context {num ArrayBuffer Worksheet : Type}.
Variable XLSX_read : ArrayBuffer -> Thrown + @Workbook Worksheet.
Variable sheet_to_json : option Worksheet -> Thrown + list (@Row num).

(** C7.  A file of more than 10 MiB is refused with the size message,
    whatever its type: the run sets the three states, reports the size
    message and ends, and neither the reader nor the codec is called. *)
Theorem oversize_file_is_refused_first (file : @File ArrayBuffer) :
  size file > maxSize ->
  processExcelFile XLSX_read sheet_to_json file
  = [ SetIsLoading true; SetError None; SetUploadProgress 0;
      SetError (Some sizeMessage);
      SetIsLoading false; ResetProgressLater ]
  /\ errorOf (processExcelFile XLSX_read sheet_to_json file)
     = Some sizeMessage
  /\ decodes (processExcelFile XLSX_read sheet_to_json file) = false.
Proof.
  intro big.
  assert (e : processExcelFile XLSX_read sheet_to_json file
              = [ SetIsLoading true; SetError None; SetUploadProgress 0;
                  SetError (Some sizeMessage);
                  SetIsLoading false; ResetProgressLater ]).
  { unfold processExcelFile, tryBlock.
    destruct (Z.gtb_spec (size file) maxSize) as [_ | le]; [| lia ].
    reflexivity. }
  rewrite e. auto.
Qed.

(** The sheet the function reads: the first of the workbook. *)
Definition firstSheet (workbook : @Workbook Worksheet) : option Worksheet :=
  Sheets workbook match SheetNames workbook with
                  | n :: _ => n
                  | [] => "undefined"
                  end.

(** C5, as the code has it.  When the decoding succeeds, the data handed
    on has at least one row and at least one header, and its header row
    and rows are the rows the codec returned for the first sheet, each
    as the codec returned it (no row is padded or cut to the number of
    headers). *)
Theorem decoded_data_not_empty (file : @File ArrayBuffer)
        (d : ExcelData num) :
  uploaded (processExcelFile XLSX_read sheet_to_json file) = Some d ->
  (0 < List.length (data d))%nat
  /\ (0 < List.length (headers d))%nat
  /\ exists buffer workbook,
      arrayBuffer file = inr buffer
      /\ XLSX_read buffer = inr workbook
      /\ sheet_to_json (firstSheet workbook) = inr (headers d :: data d)
      /\ sheetNames d = SheetNames workbook.
Proof.
  unfold processExcelFile, tryBlock, firstSheet.
  destruct (size file >? maxSize); [ discriminate |].
  destruct (includes allowedTypes (type file)); [| discriminate ].
  destruct (arrayBuffer file) as [t | buffer] eqn:read; [ discriminate |].
  cbn [when negb bind ret emit call app].
  destruct (XLSX_read buffer) as [t | workbook] eqn:decoded;
    [ discriminate |].
  cbn [bind emit app].
  destruct (sheet_to_json _) as [t | [| hs rows]] eqn:json;
    [ discriminate | discriminate |].
  cbn [bind emit app throw].
  destruct (Nat.eqb_spec (List.length hs) 0) as [z | nz];
    [ discriminate |].
  destruct (Nat.eqb_spec (List.length rows) 0) as [z' | nz'];
    [ discriminate |].
  cbn. intro e. injection e as e. subst d. cbn.
  split; [ lia |]. split; [ lia |].
  exists buffer, workbook. repeat split; trivial.
Qed.

End UploadFacts.

(** * The upload history *)

Section HistoryFacts.
Import Dashboard.
Context {num : Type}.

Lemma run_snoc (us : list (Upload num)) (u : Upload num) (st : State num) :
  run (us ++ [u]) st = fst (handleDataUpload u (run us st)).
Proof. unfold run. rewrite fold_left_app. reflexivity. Qed.

Lemma handleDataUpload_history (u : Upload num) (st : State num) :
  succeeds u = true ->
  uploadHistory (fst (handleDataUpload u st))
  = pushHistory (newUpload u) (uploadHistory st).
Proof.
  unfold succeeds, handleDataUpload.
  destruct (validate (upData u)); [ discriminate | reflexivity ].
Qed.

(** A failed upload leaves the history as it was. *)
Lemma handleDataUpload_failure (u : Upload num) (st : State num) :
  succeeds u = false ->
  uploadHistory (fst (handleDataUpload u st)) = uploadHistory st.
Proof.
  unfold succeeds, handleDataUpload.
  destruct (validate (upData u)); [ reflexivity | discriminate ].
Qed.

(** The history is the records of the uploads, the latest first, cut
    to five. *)
Lemma history_is_latest_five (us : list (Upload num)) :
  forallb succeeds us = true ->
  uploadHistory (run us initialState)
  = firstn 5 (rev (map newUpload us)).
Proof.
  induction us as [| u us IH] using rev_ind; intro ok; [ reflexivity |].
  rewrite forallb_app in ok. apply andb_true_iff in ok.
  destruct ok as [ok oku]. simpl in oku. rewrite andb_true_r in oku.
  rewrite run_snoc, handleDataUpload_history, IH by trivial.
  rewrite map_app, rev_app_distr.
  change (rev (map newUpload [u]) ++ rev (map newUpload us))
    with (newUpload u :: rev (map newUpload us)).
  rewrite firstn_cons. unfold pushHistory.
  rewrite firstn_firstn. reflexivity.
Qed.

Lemma firstn_four_of_five {A : Type} (l : list A) :
  List.length l = 5%nat -> firstn 4 l = removelast l.
Proof.
  destruct l as [| a [| b [| c [| d [| e [| f l]]]]]]; try discriminate.
  reflexivity.
Qed.

(** C9.  After any sequence of successful uploads the history holds at
    most five records: the records of the latest uploads, the most
    recent first.  When it holds five and one more upload arrives, the
    new record goes to the front and the last record, the oldest, is
    the one dropped. *)
Theorem history_keeps_latest_five (us : list (Upload num)) :
  forallb succeeds us = true ->
  let history := uploadHistory (run us initialState) in
  (List.length history <= 5)%nat
  /\ history = firstn 5 (rev (map newUpload us))
  /\ forall u, succeeds u = true ->
               List.length history = 5%nat ->
               uploadHistory (run (us ++ [u]) initialState)
               = newUpload u :: removelast history.
Proof.
  intros ok history.
  assert (e : history = firstn 5 (rev (map newUpload us)))
    by (apply history_is_latest_five; trivial).
  split; [| split ]; trivial.
  - rewrite e. apply firstn_le_length.
  - intros u oku full.
    rewrite run_snoc, handleDataUpload_history by trivial.
    fold history. unfold pushHistory.
    rewrite firstn_four_of_five; trivial.
Qed.

End HistoryFacts.

(** * Further properties of the table *)

Section OrderFacts.
Context {A : Type} (f : A -> A -> Z).

Lemma sortedBy_ext (h : A -> A -> Z) (l : list A) :
  (forall a b, f a b = h a b) -> sortedBy f l -> sortedBy h l.
Proof.
  intros e s. unfold sortedBy in *.
  induction s as [| a l s IH all]; constructor; trivial.
  rewrite Forall_forall in *. intros b ib. rewrite <- e. auto.
Qed.

Lemma equalsOf_ext (h : A -> A -> Z) (x : A) (l : list A) :
  (forall a b, f a b = h a b) -> equalsOf f x l = equalsOf h x l.
Proof.
  intro e. unfold equalsOf. apply filter_ext. intro y. rewrite e. trivial.
Qed.

Lemma consistent_ext (h : A -> A -> Z) (S : list A) :
  (forall a b, f a b = h a b) -> consistent f S -> consistent h S.
Proof.
  intros e [r s te tl tg]. constructor; intros *; rewrite <- !e; eauto.
Qed.

Lemma equalsOf_permutation (x : A) (l l' : list A) :
  Permutation l l' -> Permutation (equalsOf f x l) (equalsOf f x l').
Proof.
  unfold equalsOf.
  induction 1 as [| a l l' p IH | a b l | l l' l'' p1 IH1 p2 IH2]; simpl.
  - constructor.
  - destruct (f x a =? 0); [ constructor |]; trivial.
  - destruct (f x a =? 0), (f x b =? 0); try apply Permutation_refl.
    apply perm_swap.
  - apply perm_trans with (filter (fun y => f x y =? 0) l'); trivial.
Qed.

(** No two elements at different places compare equal. *)
Fixpoint noTies (l : list A) : bool :=
  match l with
  | [] => true
  | a :: t => forallb (fun b => negb (f a b =? 0)) t && noTies t
  end.

Lemma equalsOf_none (a : A) (t : list A) :
  (forall y, In y t -> f a y <> 0) -> equalsOf f a t = [].
Proof.
  unfold equalsOf. induction t as [| b t IH]; intro none; simpl; trivial.
  destruct (Z.eqb_spec (f a b) 0) as [e | n].
  - destruct (none b); trivial. left; trivial.
  - apply IH. intros y iy. apply none. right; trivial.
Qed.

Lemma noTies_equalsOf (S l : list A) (x : A) :
  consistent f S -> (forall a, In a l -> In a S) ->
  noTies l = true -> In x l -> equalsOf f x l = [x].
Proof.
  intros ok. induction l as [| a t IH]; intros sub nt ix; [ destruct ix |].
  simpl in nt. apply andb_true_iff in nt. destruct nt as [na nt].
  rewrite forallb_forall in na.
  assert (ia : In a S) by (apply sub; left; trivial).
  assert (none : forall y, In y t -> f a y <> 0).
  { intros y iy e. specialize (na y iy). rewrite e in na. discriminate. }
  unfold equalsOf. simpl. fold (equalsOf f x t).
  destruct (Z.eqb_spec (f x a) 0) as [e | n].
  - assert (xa : x = a).
    { destruct ix as [e' | it]; [ auto |].
      assert (isx : In x S) by (apply sub; right; trivial).
      apply (cf_sym f S ok) in e; trivial. destruct (none x it e). }
    subst x. f_equal. apply equalsOf_none; trivial.
  - destruct ix as [e | it].
    + subst x. rewrite (cf_refl f S ok) in n; trivial. destruct n; trivial.
    + apply IH; trivial. intros y iy. apply sub. right; trivial.
Qed.

(** When every pair compares equal, the elements equal to [x] are all of
    them. *)
Lemma equalsOf_all (x : A) (l : list A) :
  (forall a b, f a b = 0) -> equalsOf f x l = l.
Proof.
  intro z. unfold equalsOf. apply forallb_filter_id.
  apply forallb_forall. intros y _. rewrite z. trivial.
Qed.

Lemma constant_zero_consistent (S : list A) :
  (forall a b, f a b = 0) -> consistent f S.
Proof. intro z. constructor; intros; rewrite ?z in *; trivial; lia. Qed.

End OrderFacts.

Section MoreTable.
Import Js DataPreview.
Context {num : Type} `{JsNumber num} `{ArraySort}.

(** X1.  A click on a header makes its column the sort column.  A click
    on the column that is sorted flips the direction, so a third click
    gives the state of the first; a click on another column starts
    ascending.  The search term and the paging are never touched. *)
Theorem handleSort_cycle (column : string) (st : State) :
  sortColumn (handleSort column st) = Some column
  /\ handleSort column (handleSort column (handleSort column st))
     = handleSort column st
  /\ sortDirection (handleSort column (handleSort column st))
     <> sortDirection (handleSort column st)
  /\ (sortColumn st = Some column
      \/ sortDirection (handleSort column st) = asc)
  /\ searchTerm (handleSort column st) = searchTerm st
  /\ showAllRows (handleSort column st) = showAllRows st.
Proof.
  destruct st as [showAll term [c |] d]; unfold handleSort; simpl.
  - destruct (String.eqb_spec c column) as [e | n]; simpl.
    + subst c. rewrite !String.eqb_refl. simpl. rewrite String.eqb_refl.
      destruct d; repeat split; auto; discriminate.
    + rewrite !String.eqb_refl. simpl. rewrite String.eqb_refl.
      repeat split; auto; discriminate.
  - rewrite !String.eqb_refl. simpl. rewrite String.eqb_refl.
    repeat split; auto; discriminate.
Qed.

(** X2.  Sorting only reorders: the rows shown are the matched rows in
    some order, whatever the sort column and direction, and there are
    never more of them than rows of data. *)
Theorem sorting_only_reorders (data : list (@Row num))
        (headers : list string) (st : State) :
  Permutation (filteredData data st) (filteredAndSortedData data headers st)
  /\ List.length (filteredAndSortedData data headers st)
     = List.length (filteredData data st)
  /\ (List.length (filteredAndSortedData data headers st)
      <= List.length data)%nat.
Proof.
  assert (p : Permutation (filteredData data st)
                          (filteredAndSortedData data headers st)).
  { unfold filteredAndSortedData.
    destruct (sortColumnSet st);
      [ apply sort_permutation | apply Permutation_refl ]. }
  assert (l : (List.length (filteredData data st) <= List.length data)%nat).
  { unfold filteredData. destruct (Str.nonEmpty (searchTerm st)); trivial.
    apply filter_length_le. }
  split; trivial. apply Permutation_length in p. split; lia.
Qed.






(** X4.  When ten rows or fewer match, the table shows all of them
    whether or not [showAllRows] is on, the toggle is disabled
    ([hasMoreRows] is false) and no note on truncation is shown. *)
Theorem small_table_is_shown_whole (data : list (@Row num))
        (headers : list string) (st : State) :
  (List.length (filteredAndSortedData data headers st) <= 10)%nat ->
  previewRows data headers st = filteredAndSortedData data headers st
  /\ hasMoreRows data headers st = false
  /\ showsTruncationNote data headers st = false.
Proof.
  intro le. unfold showsTruncationNote, previewRows, hasMoreRows,
    maxPreviewRows.
  assert (h : (10 <? List.length (filteredAndSortedData data headers st))%nat
              = false) by (apply Nat.ltb_ge; trivial).
  rewrite h. repeat split.
  destruct (showAllRows st); trivial. apply firstn_all2; trivial.
Qed.



Lemma comparefn_desc (columnIndex : Z) (a b : @Row num) :
  comparefn columnIndex desc a b = opposite (comparefn columnIndex asc) a b.
Proof.
  unfold comparefn, opposite.
  destruct (strictEq (get a columnIndex) (get b columnIndex)); trivial.
Qed.

Lemma comparefn_asc (columnIndex : Z) (a b : @Row num) :
  opposite (comparefn columnIndex desc) a b = comparefn columnIndex asc a b.
Proof.
  unfold comparefn, opposite.
  destruct (strictEq (get a columnIndex) (get b columnIndex)); trivial.
  destruct (lessThan (get a columnIndex) (get b columnIndex)); trivial.
Qed.

(** X6.  On a column of texts, or of numbers other than NaN, in which no
    two rows hold equal values, the descending order is the ascending
    order read backwards.  (With equal values it is not: they keep their
    order of the data in both directions.) *)
Theorem descending_is_ascending_reversed
        (rows : list (@Row num)) (columnIndex : Z) :
  uniformColumn columnIndex rows = true ->
  noTies (comparefn columnIndex asc) rows = true ->
  sort (comparefn columnIndex desc) rows
  = rev (sort (comparefn columnIndex asc) rows).
Proof.
  intros u nt.
  pose proof (comparefn_consistent columnIndex asc rows u) as okf.
  pose proof (comparefn_consistent columnIndex desc rows u) as okg.
  assert (single : forall l' x, Permutation rows l' -> In x rows ->
            equalsOf (comparefn columnIndex desc) x l' = [x]).
  { intros l' x p ix.
    rewrite (equalsOf_ext _ (opposite (comparefn columnIndex asc)))
      by (intros; apply comparefn_desc).
    rewrite equalsOf_opposite.
    apply Permutation_length_1_inv.
    rewrite <- (noTies_equalsOf (comparefn columnIndex asc) rows rows x);
      auto.
    apply equalsOf_permutation. trivial. }
  apply (sorted_stable_unique _ rows okg).
  - intros a. apply sort_In.
  - intros a ia. apply in_rev in ia. apply sort_In in ia. trivial.
  - apply sort_sorted; trivial.
  - apply sortedBy_rev with rows; trivial.
    + intros a. apply sort_In.
    + apply (sortedBy_ext (comparefn columnIndex asc)).
      * intros. symmetry. apply comparefn_asc.
      * apply sort_sorted; trivial.
  - intros x ix. rewrite !single; trivial.
    + apply perm_trans with (sort (comparefn columnIndex asc) rows).
      * apply sort_permutation.
      * apply Permutation_rev.
    + apply sort_permutation.
Qed.

(** The sort column of the state is set and is one of the headers. *)
Definition sortsByHeader (headers : list string) (st : State) : bool :=
  match sortColumnSet st with
  | Some c => hasColumn headers c
  | None => false
  end.

(** X7.  When no sort column is set, or its name is empty, or it is not
    one of the headers, the rows are shown in the order of the data:
    for a name that is no header every key reads as [undefined], all
    rows compare equal, and the sort keeps their order. *)
Theorem sort_without_column_keeps_order (data : list (@Row num))
        (headers : list string) (st : State) :
  sortsByHeader headers st = false ->
  filteredAndSortedData data headers st = filteredData data st.
Proof.
  unfold sortsByHeader, filteredAndSortedData.
  destruct (sortColumnSet st) as [c |]; trivial. intro missing.
  destruct (indexOf_cases headers c) as [[i _] | [_ h]]; [| congruence ].
  rewrite i.
  assert (z : forall a b : @Row num, comparefn (-1) (sortDirection st) a b = 0)
    by reflexivity.
  pose proof (constant_zero_consistent _ (filteredData data st) z) as ok.
  destruct (filteredData data st) as [| x t] eqn:rows.
  - apply Permutation_nil. apply sort_permutation.
  - pose proof (sort_stable _ _ _ ok x (or_introl eq_refl)) as stable.
    rewrite !equalsOf_all in stable; trivial.
Qed.

End MoreTable.

(** * Further properties of the chart *)

Section MoreChart.
Import Js ChartGenerator.
Context {num : Type} `{JsNumber num}.

Lemma some_numeric_iff (data : list (@Row num)) (yIndex : Z) :
  (List.length (numericYValues data yIndex) =? 0)%nat = false
  <-> exists row, In row data /\ coerces (get row yIndex) = true.
Proof.
  split.
  - intro some. unfold numericYValues, column in some.
    destruct (filter isNumericY (map (fun row => get row yIndex) data))
      as [| v rest] eqn:kept; [ discriminate |].
    assert (iv : In v (filter isNumericY
                         (map (fun row => get row yIndex) data)))
      by (rewrite kept; left; trivial).
    apply filter_In in iv. destruct iv as [iv nv].
    apply in_map_iff in iv. destruct iv as [row [e ir]].
    exists row. split; trivial. rewrite <- isNumericY_coerces. congruence.
  - intros [row [ir c]].
    destruct (List.length (numericYValues data yIndex) =? 0)%nat eqn:none;
      trivial.
    pose proof (proj1 (no_numeric_iff _ _) none row ir). congruence.
Qed.

(** X8.  A chart is drawn exactly when both axes are chosen, both name a
    header and some value of the Y column coerces.  It is then one
    trace over the whole X and Y columns, one entry per row of data: the
    values that do not coerce are handed to the widget with the others.
    In every other case nothing is drawn. *)
Theorem chart_drawn_iff (data : list (@Row num)) (headers : list string)
        (x y : string) (ct : ChartType) :
  let drawn :=
    Build_Outcome
      (Some [traceOf ct x y (column data (indexOf headers x))
                     (column data (indexOf headers y))]) None in
  (chartData data headers x y ct = drawn
   <-> Str.nonEmpty x = true
       /\ Str.nonEmpty y = true
       /\ hasColumn headers x = true
       /\ hasColumn headers y = true
       /\ exists row, In row data
                      /\ coerces (get row (indexOf headers y)) = true)
  /\ (traces (chartData data headers x y ct) = None
      \/ chartData data headers x y ct = drawn)
  /\ List.length (column data (indexOf headers x)) = List.length data
  /\ List.length (column data (indexOf headers y)) = List.length data.
Proof.
  intro drawn. subst drawn. unfold chartData, column.
  rewrite !indexOf_missing, !length_map.
  split; [| split; [| split; trivial ] ].
  - destruct (Str.nonEmpty x); simpl;
      [| split; [ discriminate | intros [e _]; discriminate ] ].
    destruct (Str.nonEmpty y); simpl;
      [| split; [ discriminate | intros [_ [e _]]; discriminate ] ].
    destruct (Nat.eqb_spec (List.length data) 0) as [z | nz].
    { split; [ discriminate |]. intros [_ [_ [_ [_ [row [ir _]]]]]].
      destruct data; [ destruct ir | discriminate ]. }
    destruct (hasColumn headers x); simpl;
      [| split; [ discriminate | intros [_ [_ [e _]]]; discriminate ] ].
    destruct (hasColumn headers y); simpl;
      [| split; [ discriminate | intros [_ [_ [_ [e _]]]]; discriminate ] ].
    destruct (List.length (numericYValues data (indexOf headers y)) =? 0)%nat
      eqn:none.
    + split; [ discriminate |]. intros [_ [_ [_ [_ some]]]].
      apply some_numeric_iff in some. congruence.
    + apply some_numeric_iff in none. split; auto 10.
  - destruct (negb (Str.nonEmpty x) || negb (Str.nonEmpty y)
              || (List.length data =? 0)%nat); [ left; trivial |].
    destruct (negb (hasColumn headers x) || negb (hasColumn headers y));
      [ left; trivial |].
    destruct (List.length (numericYValues data (indexOf headers y)) =? 0)%nat;
      [ left; trivial | right; trivial ].
Qed.

(** X9.  The chart type changes the shape of the trace only: whether a
    chart is drawn, and the message reported, are the same for every
    type. *)
Theorem chart_type_changes_shape_only
        (data : list (@Row num)) (headers : list string)
        (x y : string) (ct ct' : ChartType) :
  setError (chartData data headers x y ct)
  = setError (chartData data headers x y ct')
  /\ (traces (chartData data headers x y ct) = None
      <-> traces (chartData data headers x y ct') = None).
Proof.
  unfold chartData.
  destruct (negb (Str.nonEmpty x) || negb (Str.nonEmpty y)
            || (List.length data =? 0)%nat); [ simpl; tauto |].
  destruct ((indexOf headers x =? -1) || (indexOf headers y =? -1));
    [ simpl; tauto |].
  destruct (List.length (numericYValues data (indexOf headers y)) =? 0)%nat;
    simpl; [ tauto |].
  split; trivial. split; discriminate.
Qed.

(** X10.  A render never clears the error: once a message is shown it
    stays, also beside a chart that is drawn afterwards (then it is the
    same message); [resetChart] is what clears it. *)
Theorem render_never_clears_error
        (data : list (@Row num)) (headers : list string)
        (st : State) (m : string) :
  error st = Some m ->
  (exists m', error (render data headers st) = Some m')
  /\ (traces (chartData data headers (xAxis st) (yAxis st) (chartType st))
      <> None ->
      error (render data headers st) = Some m)
  /\ error (resetChart (render data headers st)) = None.
Proof.
  intro e. unfold render, errorAfter. simpl. rewrite e.
  unfold chartData.
  destruct (negb (Str.nonEmpty (xAxis st)) || negb (Str.nonEmpty (yAxis st))
            || (List.length data =? 0)%nat); simpl; [ eauto |].
  destruct ((indexOf headers (xAxis st) =? -1)
            || (indexOf headers (yAxis st) =? -1)); simpl; [ eauto |].
  destruct (List.length (numericYValues data (indexOf headers (yAxis st)))
            =? 0)%nat; simpl; [| eauto ].
  split; [ eauto |]. split; trivial. intro n. destruct n. trivial.
Qed.


Lemma indexOf_first (pre post : list string) (name : string) :
  hasColumn pre name = false ->
  indexOf (pre ++ name :: post) name = Z.of_nat (List.length pre).
Proof.
  induction pre as [| h pre IH]; intro no; simpl.
  - rewrite String.eqb_refl. trivial.
  - simpl in no. apply orb_false_iff in no. destruct no as [nh no].
    rewrite nh, IH by trivial.
    destruct (Z.ltb_spec (Z.of_nat (List.length pre)) 0); lia.
Qed.

(** X12.  When several headers carry the same name, an axis with that
    name reads the first of their columns: the columns after it are out
    of reach of the chart (and of the sort, which looks the column up
    the same way). *)
Theorem axis_reads_first_column_of_its_name
        (data : list (@Row num)) (pre post : list string) (name : string) :
  hasColumn pre name = false ->
  indexOf (pre ++ name :: post) name = Z.of_nat (List.length pre)
  /\ column data (indexOf (pre ++ name :: post) name)
     = map (fun row => get row (Z.of_nat (List.length pre))) data
  /\ forall d a b,
      DataPreview.comparefn (indexOf (pre ++ name :: post) name) d a b
      = DataPreview.comparefn (Z.of_nat (List.length pre)) d a b.
Proof.
  intro no. rewrite indexOf_first by trivial. auto.
Qed.

End MoreChart.

(** * Further properties of the upload *)

Section MoreUpload.
Import Js FileUpload.
Context {num ArrayBuffer Worksheet : Type}.
Variable XLSX_read : ArrayBuffer -> Thrown + @Workbook Worksheet.
Variable sheet_to_json : option Worksheet -> Thrown + list (@Row num).

(** What the reader and the codec throw for a file, if one of them
    does: the first of the three calls that fails. *)
Definition thrownBy (file : @File ArrayBuffer) : option Thrown :=
  match arrayBuffer file with
  | inl t => Some t
  | inr buffer =>
      match XLSX_read buffer with
      | inl t => Some t
      | inr workbook =>
          match sheet_to_json (firstSheet workbook) with
          | inl t => Some t
          | inr _ => None
          end
      end
  end.

(** The rows the codec returns for the first sheet of a file, when the
    three calls succeed. *)
Definition rowsRead (file : @File ArrayBuffer) : option (list (@Row num)) :=
  match arrayBuffer file with
  | inl _ => None
  | inr buffer =>
      match XLSX_read buffer with
      | inl _ => None
      | inr workbook =>
          match sheet_to_json (firstSheet workbook) with
          | inl _ => None
          | inr rows => Some rows
          end
      end
  end.

(** The file passes the two checks made before it is read. *)
Definition accepted (file : @File ArrayBuffer) : bool :=
  negb (size file >? maxSize) && includes allowedTypes (type file).

Ltac run_cases file :=
  unfold processExcelFile, tryBlock, thrownBy, rowsRead, accepted,
    firstSheet in *;
  destruct (size file >? maxSize) eqn:big;
  [| destruct (includes allowedTypes (type file)) eqn:allowed;
     [ destruct (arrayBuffer file) as [t | buffer] eqn:read;
       [| cbn [when negb bind ret emit call app];
          destruct (XLSX_read buffer) as [t | workbook] eqn:decoded;
          [| cbn [bind emit app];
             destruct (sheet_to_json _) as [t | [| hs rows]] eqn:json;
             [ | | cbn [bind emit app throw];
                   destruct (List.length hs =? 0)%nat eqn:noHeaders;
                   [| destruct (List.length rows =? 0)%nat eqn:noData ] ] ] ]
     | ] ].

(** X13.  A run ends in exactly one of two ways: the data is handed to
    [onDataUpload] and no error is left, or an error message is left
    and [onDataUpload] is not called.  Either way the run starts by
    setting the loading flag and clearing the error and the progress,
    and ends by clearing the loading flag and scheduling the reset of
    the progress. *)
Theorem run_ends_in_data_or_error (file : @File ArrayBuffer) :
  ((exists d, uploaded (processExcelFile XLSX_read sheet_to_json file) = Some d
              /\ errorOf (processExcelFile XLSX_read sheet_to_json file) = None)
   \/ (uploaded (processExcelFile XLSX_read sheet_to_json file) = None
       /\ exists m,
           errorOf (processExcelFile XLSX_read sheet_to_json file) = Some m))
  /\ exists es,
      processExcelFile XLSX_read sheet_to_json file
      = [SetIsLoading true; SetError None; SetUploadProgress 0]
        ++ es ++ [SetIsLoading false; ResetProgressLater].
Proof.
  split.
  - run_cases file; cbn; eauto.
  - unfold processExcelFile. destruct (tryBlock _ _ file) as [es r].
    exists (es ++ match r with
                  | inl t => [SetError (Some (messageOf t))]
                  | inr _ => []
                  end).
    rewrite <- !app_assoc. reflexivity.
Qed.

(** X14.  A file of an unsupported type that is not too large is
    refused with the type message, and neither the reader nor the codec
    is called. *)
Theorem unsupported_type_is_refused_unread (file : @File ArrayBuffer) :
  size file <= maxSize ->
  includes allowedTypes (type file) = false ->
  processExcelFile XLSX_read sheet_to_json file
  = [ SetIsLoading true; SetError None; SetUploadProgress 0;
      SetError (Some typeMessage);
      SetIsLoading false; ResetProgressLater ]
  /\ decodes (processExcelFile XLSX_read sheet_to_json file) = false.
Proof.
  intros small other.
  assert (e : processExcelFile XLSX_read sheet_to_json file
              = [ SetIsLoading true; SetError None; SetUploadProgress 0;
                  SetError (Some typeMessage);
                  SetIsLoading false; ResetProgressLater ]).
  { unfold processExcelFile, tryBlock.
    destruct (Z.gtb_spec (size file) maxSize) as [gt | _]; [ lia |].
    rewrite other. reflexivity. }
  rewrite e. auto.
Qed.

(** X15.  The progress of a run goes through the first steps of
    0, 25, 50, 75, 90, 100, in that order and without a step back, and
    reaches 100 exactly when the data is handed on. *)
Theorem progress_is_a_prefix (file : @File ArrayBuffer) :
  exists k,
    progressOf (processExcelFile XLSX_read sheet_to_json file)
    = firstn k [0; 25; 50; 75; 90; 100]
    /\ (1 <= k <= 6)%nat
    /\ (k = 6%nat
        <-> exists d,
            uploaded (processExcelFile XLSX_read sheet_to_json file)
            = Some d).
Proof.
  run_cases file; cbn;
    [ exists 1%nat | exists 2%nat | exists 3%nat | exists 4%nat
    | exists 4%nat | exists 4%nat | exists 4%nat | exists 6%nat
    | exists 1%nat ];
    (split; [ reflexivity |]; split; [ lia |];
     split; [ try discriminate; eauto
            | intros [d e]; try discriminate; trivial ]).
Qed.


(** X17.  When the reader or the codec throws, the message of the error
    thrown is the one reported (the fallback message when what is
    thrown is not an [Error]), and no data is handed on. *)
Theorem thrown_error_is_reported (file : @File ArrayBuffer) (thrown : Thrown) :
  accepted file = true ->
  thrownBy file = Some thrown ->
  errorOf (processExcelFile XLSX_read sheet_to_json file)
  = Some (match thrown with
          | ThrownError m => m
          | ThrownOther => fallbackMessage
          end)
  /\ uploaded (processExcelFile XLSX_read sheet_to_json file) = None.
Proof.
  intros ok th. revert ok th.
  run_cases file; cbn; intros ok e; try discriminate;
    injection e as e; subst thrown; auto.
Qed.

(** X18.  What a successful run hands on is accepted by the dashboard:
    the callback gets the name of the file, the data passes the two
    checks of [handleDataUpload], which therefore stores it and clears
    the error. *)
Theorem decoded_data_is_accepted (file : @File ArrayBuffer)
        (d : ExcelData num) (now date : Z) (st : Dashboard.State num) :
  uploaded (processExcelFile XLSX_read sheet_to_json file) = Some d ->
  let u := {| Dashboard.upData := d;
              Dashboard.upFileName := Some (name file);
              Dashboard.dateNow := now; Dashboard.newDate := date |} in
  In (OnDataUpload d (name file))
     (processExcelFile XLSX_read sheet_to_json file)
  /\ Dashboard.validate d = None
  /\ Dashboard.uploadedData (fst (Dashboard.handleDataUpload u st)) = Some d
  /\ Dashboard.error (fst (Dashboard.handleDataUpload u st)) = None
  /\ Dashboard.destructive (snd (Dashboard.handleDataUpload u st)) = false.
Proof.
  intros up u.
  assert (both : In (OnDataUpload d (name file))
                    (processExcelFile XLSX_read sheet_to_json file)
                 /\ Dashboard.validate d = None).
  { revert up. run_cases file; cbn; intro e; try discriminate.
    injection e as e. subst d. unfold Dashboard.validate. cbn.
    rewrite noHeaders, noData. split; trivial.
    do 11 right. left. reflexivity. }
  destruct both as [called valid]. subst u.
  unfold Dashboard.handleDataUpload. cbn. rewrite valid. auto.
Qed.

End MoreUpload.

(** * Further properties of the dashboard *)

Section MoreHistory.
Import Dashboard.
Context {num : Type}.

(** The uploads of a sequence of actions that pass the checks, oldest
    first. *)
Definition successes (actions : list (@Action num)) : list (Upload num) :=
  flat_map (fun a => match a with
                     | DoUpload u => if succeeds u then [u] else []
                     | DoReset => []
                     end) actions.

Lemma runActions_snoc (actions : list (@Action num)) (a : @Action num)
      (st : State num) :
  runActions (actions ++ [a]) st = step (runActions actions st) a.
Proof. unfold runActions. rewrite fold_left_app. reflexivity. Qed.

Lemma history_after_actions (actions : list (@Action num)) :
  uploadHistory (runActions actions initialState)
  = firstn 5 (rev (map newUpload (successes actions))).
Proof.
  induction actions as [| a actions IH] using rev_ind; [ reflexivity |].
  rewrite runActions_snoc. unfold successes in *.
  rewrite flat_map_app, map_app, rev_app_distr.
  destruct a as [u |]; cbn [step flat_map app].
  - destruct (succeeds u) eqn:ok.
    + rewrite handleDataUpload_history, IH by trivial.
      cbn [map rev app]. rewrite firstn_cons. unfold pushHistory.
      rewrite firstn_firstn. reflexivity.
    + rewrite handleDataUpload_failure, IH by trivial. reflexivity.
  - cbn. exact IH.
Qed.

(** X19.  Whatever the user does - uploads that succeed, uploads that
    are refused, resets - the history is the records of the uploads that
    succeeded, the latest first, cut to five: a refused upload and a
    reset leave it alone.  The card "Total Uploads" shows its length, so
    it never shows more than 5. *)
Theorem history_after_any_actions (actions : list (@Action num)) :
  uploadHistory (runActions actions initialState)
  = firstn 5 (rev (map newUpload (successes actions)))
  /\ (List.length (uploadHistory (runActions actions initialState)) <= 5)%nat
  /\ totalUploads (runActions actions initialState)
     = decimal (Z.of_nat (Nat.min 5 (List.length (successes actions)))).
Proof.
  pose proof (history_after_actions actions) as e.
  split; trivial. unfold totalUploads. rewrite e, length_firstn.
  rewrite length_rev, length_map. split; trivial. lia.
Qed.

(** What holds of the state of the dashboard at every moment. *)
Definition coherent (st : State num) : Prop :=
  isProcessing st = false
  /\ match uploadedData st with
     | Some d =>
         validate d = None
         /\ exists h rest,
             uploadHistory st = h :: rest
             /\ currentFileName st = fileName h
             /\ rowCount h = List.length (data d)
             /\ columnCount h = List.length (headers d)
     | None => currentFileName st = ""
     end.

Lemma step_coherent (st : State num) (a : @Action num) :
  coherent st -> coherent (step st a).
Proof.
  intros [idle shown]. destruct a as [u |]; unfold coherent; cbn.
  - unfold handleDataUpload.
    destruct (validate (upData u)) eqn:valid; cbn.
    + split; trivial.
    + split; trivial. split; trivial.
      exists (newUpload u), (firstn 4 (uploadHistory st)). auto.
  - auto.
Qed.

(** X20.  At every moment the dashboard is coherent: it is not left
    "processing"; when data is shown, the data passed the checks (it has
    rows and headers) and the first record of the history is the record
    of that data - its file name is the one displayed, its counts are
    those of the data; when no data is shown, no file name is. *)
Theorem dashboard_stays_coherent (actions : list (@Action num)) :
  isProcessing (runActions actions initialState) = false
  /\ match uploadedData (runActions actions initialState) with
     | Some d =>
         (0 < List.length (data d))%nat
         /\ (0 < List.length (headers d))%nat
         /\ exists h rest,
             uploadHistory (runActions actions initialState) = h :: rest
             /\ currentFileName (runActions actions initialState)
                = fileName h
             /\ rowCount h = List.length (data d)
             /\ columnCount h = List.length (headers d)
     | None => currentFileName (runActions actions initialState) = ""
     end.
Proof.
  assert (c : coherent (runActions actions initialState)).
  { induction actions as [| a actions IH] using rev_ind.
    - split; reflexivity.
    - rewrite runActions_snoc. apply step_coherent, IH. }
  destruct c as [idle shown]. split; trivial.
  destruct (uploadedData (runActions actions initialState)) as [d |];
    trivial.
  destruct shown as [valid record]. unfold validate in valid.
  destruct (Nat.eqb_spec (List.length (data d)) 0); [ discriminate |].
  destruct (Nat.eqb_spec (List.length (headers d)) 0); [ discriminate |].
  repeat split; trivial; lia.
Qed.

(** Reading the decimal text of an integer gives the integer back. *)
Definition readDecimal (s : string) : option Z :=
  option_map Z.of_int (NilZero.int_of_string s).

Lemma readDecimal_decimal (z : Z) : readDecimal (decimal z) = Some z.
Proof.
  unfold readDecimal, decimal. rewrite NilZero.isi.
  - simpl. rewrite DecimalZ.of_to. trivial.
  - destruct z; simpl; try discriminate.
    intro e. injection e as e.
    apply DecimalPos.Unsigned.to_uint_nonnil in e. trivial.
  - destruct z; simpl; try discriminate.
    intro e. injection e as e.
    apply DecimalPos.Unsigned.to_uint_nonnil in e. trivial.
Qed.

Lemma decimal_injective (a b : Z) : decimal a = decimal b -> a = b.
Proof.
  intro e. apply (f_equal readDecimal) in e.
  rewrite !readDecimal_decimal in e. congruence.
Qed.

Fixpoint allDistinct (l : list Z) : bool :=
  match l with
  | [] => true
  | z :: rest => forallb (fun y => negb (z =? y)) rest && allDistinct rest
  end.

Lemma allDistinct_NoDup (l : list Z) : allDistinct l = true -> NoDup l.
Proof.
  induction l as [| z rest IH]; intro d; constructor;
    simpl in d; apply andb_true_iff in d; destruct d as [fresh d]; auto.
  intro i. rewrite forallb_forall in fresh. specialize (fresh z i).
  rewrite Z.eqb_refl in fresh. discriminate.
Qed.

Lemma NoDup_map_injective {A B : Type} (f : A -> B) (l : list A) :
  (forall a b, f a = f b -> a = b) -> NoDup l -> NoDup (map f l).
Proof.
  intros inj nd. induction nd as [| a l fresh nd IH]; simpl; constructor;
    trivial.
  intro i. apply in_map_iff in i. destruct i as [b [e ib]].
  apply inj in e. congruence.
Qed.

Lemma NoDup_firstn {A : Type} (n : nat) (l : list A) :
  NoDup l -> NoDup (firstn n l).
Proof.
  intro nd. rewrite <- (firstn_skipn n l) in nd.
  apply NoDup_app_remove_r in nd. trivial.
Qed.

(** X21.  The records of the history carry the text of [Date.now()] as
    their id: when the clock gave a different value at each upload that
    succeeded, the ids of the history are all different (they serve as
    the keys of the list shown). *)
Theorem history_ids_are_distinct (actions : list (@Action num)) :
  allDistinct (map dateNow (successes actions)) = true ->
  NoDup (map id (uploadHistory (runActions actions initialState))).
Proof.
  intro d. apply allDistinct_NoDup in d.
  rewrite history_after_actions, <- firstn_map, map_rev, map_map.
  apply NoDup_firstn, NoDup_rev.
  change (fun u : Upload num => id (newUpload u))
    with (fun u : Upload num => decimal (dateNow u)).
  rewrite <- map_map.
  apply NoDup_map_injective; trivial. apply decimal_injective.
Qed.

End MoreHistory.

(** * The crash screen *)

Section BoundaryFacts.
Import ErrorBoundary.
Context {Node : Type}.



End BoundaryFacts.

(** * The components at work

    The scenarios of the specification and the boundary cases of the
    claims, run on [DecimalNumber] and [InsertionSort]. *)

Module Scenario.
Import Js DecimalNum.

#[local] Existing Instance DecimalNumber.
#[local] Existing Instance InsertionSort.

Definition text (s : string) : option (JsValue dnum) := Some (VString s).
Definition number (z : Z) : option (JsValue dnum) := Some (VNumber (DFin z 0)).

Definition nameAndSales : list string := ["Name"; "Sales"].

Definition alice : @Row dnum := [text "Alice"; number 10].
Definition bob : @Row dnum := [text "Bob"; number 20].
Definition carol : @Row dnum := [text "Carol"; number 10].

(** A sheet where one Sales cell holds a remark instead of a number. *)
Definition bobRemark : @Row dnum := [text "Bob"; text "n/a"].

(** A sheet whose second column holds no number. *)
Definition kinds : list (@Row dnum) :=
  [ [text "a"; text "x"]; [text "b"; text "y"]; [text "c"; text "z"] ].

Definition search (term : string) : DataPreview.State :=
  {| DataPreview.showAllRows := false;
     DataPreview.searchTerm := term;
     DataPreview.sortColumn := None;
     DataPreview.sortDirection := DataPreview.asc |}.

Definition sortBy (column : string) (d : DataPreview.SortDirection)
  : DataPreview.State :=
  {| DataPreview.showAllRows := false;
     DataPreview.searchTerm := "";
     DataPreview.sortColumn := Some column;
     DataPreview.sortDirection := d |}.

(** Scenario E: the search for "bob" keeps the row of Bob alone, and the
    empty search keeps every row. *)
Example search_bob :
  DataPreview.filteredAndSortedData [alice; bob] nameAndSales (search "bob")
  = [bob]
  /\ DataPreview.filteredAndSortedData [alice; bob] nameAndSales (search "")
     = [alice; bob].
Proof. split; reflexivity. Qed.

(** The search reads numbers as their text. *)
Example search_number :
  DataPreview.filteredAndSortedData [alice; bob] nameAndSales (search "20")
  = [bob].
Proof. reflexivity. Qed.

(** Sorting by Sales: ascending, the two rows with 10 keep their order;
    descending as well. *)
Example sort_by_sales :
  DataPreview.filteredAndSortedData [bob; alice; carol] nameAndSales
    (sortBy "Sales" DataPreview.asc)
  = [alice; carol; bob]
  /\ DataPreview.filteredAndSortedData [bob; alice; carol] nameAndSales
       (sortBy "Sales" DataPreview.desc)
     = [bob; alice; carol].
Proof. split; reflexivity. Qed.

(** C4, on a column of numbers. *)
Lemma sort_stable_idempotent_witness :
  uniformColumn 1 [bob; alice; carol] = true
  /\ (let once :=
        sort (DataPreview.comparefn 1 DataPreview.asc) [bob; alice; carol] in
      sortedBy (DataPreview.comparefn 1 DataPreview.asc) once
      /\ keepsOrderOfEquals (DataPreview.comparefn 1 DataPreview.asc)
           [bob; alice; carol] once
      /\ sort (DataPreview.comparefn 1 DataPreview.asc) once = once).
Proof.
  split; [ reflexivity |].
  apply (sort_stable_idempotent_on_uniform_column
           [bob; alice; carol] 1 DataPreview.asc).
  reflexivity.
Defined.

(** C4 as written fails on a column that mixes a number and a text:
    neither value is less than the other, so the comparison function
    answers 1 both ways when ascending and -1 both ways when descending.
    On the engine [InsertionSort] each ascending sort swaps the two rows:
    sorting once gives Bob before Alice, sorting the result again gives
    Alice before Bob.  On the engine [LeftInsertionSort] each descending
    sort does. *)
Lemma mixed_column_sort_not_idempotent :
  uniformColumn 1 [alice; bobRemark] = false
  /\ DataPreview.comparefn 1 DataPreview.asc alice bobRemark = 1
  /\ DataPreview.comparefn 1 DataPreview.asc bobRemark alice = 1
  /\ DataPreview.filteredAndSortedData [alice; bobRemark] nameAndSales
       (sortBy "Sales" DataPreview.asc)
     = [bobRemark; alice]
  /\ DataPreview.filteredAndSortedData
       (DataPreview.filteredAndSortedData [alice; bobRemark] nameAndSales
          (sortBy "Sales" DataPreview.asc))
       nameAndSales (sortBy "Sales" DataPreview.asc)
     = [alice; bobRemark]
  /\ DataPreview.comparefn 1 DataPreview.desc alice bobRemark = -1
  /\ DataPreview.comparefn 1 DataPreview.desc bobRemark alice = -1
  /\ @DataPreview.filteredAndSortedData dnum DecimalNumber LeftInsertionSort
       [alice; bobRemark] nameAndSales (sortBy "Sales" DataPreview.desc)
     = [bobRemark; alice]
  /\ @DataPreview.filteredAndSortedData dnum DecimalNumber LeftInsertionSort
       (@DataPreview.filteredAndSortedData dnum DecimalNumber
          LeftInsertionSort
          [alice; bobRemark] nameAndSales (sortBy "Sales" DataPreview.desc))
       nameAndSales (sortBy "Sales" DataPreview.desc)
     = [alice; bobRemark].
Proof. repeat split; reflexivity. Qed.

(** On a column of numbers the two engines agree. *)
Example engines_agree_on_numbers :
  @DataPreview.filteredAndSortedData dnum DecimalNumber LeftInsertionSort
    [bob; alice; carol] nameAndSales (sortBy "Sales" DataPreview.asc)
  = [alice; carol; bob]
  /\ @DataPreview.filteredAndSortedData dnum DecimalNumber LeftInsertionSort
       [bob; alice; carol] nameAndSales (sortBy "Sales" DataPreview.desc)
     = [bob; alice; carol].
Proof. split; reflexivity. Qed.

(** C10, on a cell that holds the number 0. *)
Lemma falsy_cell_witness :
  ToBoolean (get [text "Alice"; number 0] 1) = false
  /\ (DataPreview.cellContent [text "Alice"; number 0] 1 = VString "-"
      /\ DataPreview.cellContent [text "Alice"; number 0] 1
         = DataPreview.cellContent [] 1).
Proof.
  split; [ reflexivity |].
  apply (falsy_cell_shows_placeholder [text "Alice"; number 0] 1).
  reflexivity.
Defined.

(** The cells of a row with a 0, a [false], an empty text and a missing
    cell all show the placeholder. *)
Example placeholders :
  DataPreview.rowCells ["A"; "B"; "C"; "D"; "E"]
    [number 0; Some (VBoolean false); text ""; None]
  = [VString "-"; VString "-"; VString "-"; VString "-"; VString "-"].
Proof. reflexivity. Qed.

(** ** The chart *)

Import ChartGenerator.

(** Scenario A: X = Name, Y = Sales, type bar: the trace has the names
    as [x] and the sales as [y]. *)
Example bar_chart :
  exists drawn,
    chartData [alice; bob] nameAndSales "Name" "Sales" bar
    = Build_Outcome (Some [drawn]) None
    /\ field "x" drawn = Some (cells [VString "Alice"; VString "Bob"])
    /\ field "y" drawn
       = Some (cells [VNumber (DFin 10 0); VNumber (DFin 20 0)])
    /\ field "type" drawn = Some (str "bar").
Proof. eexists. repeat split; reflexivity. Qed.

(** Scenario D: a Y column of ["x"; "y"; "z"] fails with "no numeric
    data" for type bar. *)
Example bar_chart_no_numeric :
  chartData kinds ["Name"; "Kind"] "Name" "Kind" bar
  = Build_Outcome None (Some noNumericDataMessage).
Proof. reflexivity. Qed.

(** C2 as written fails for [pie]: the filter on the Y column runs
    before the [switch] on the chart type, so a pie chart over a Y
    column without numbers fails with "no numeric data" as well. *)
Lemma pie_chart_needs_numeric_data :
  chartData kinds ["Name"; "Kind"] "Name" "Kind" pie
  = Build_Outcome None (Some noNumericDataMessage)
  /\ errorAfter None (chartData kinds ["Name"; "Kind"] "Name" "Kind" pie)
     = Some noNumericDataMessage.
Proof. split; reflexivity. Qed.

(** What counts as numeric in the Y column: numbers, numerals as text
    (also with spaces around, or ["Infinity"]), booleans; not [null],
    not the empty text, not an empty cell, not other text. *)
Example numeric_values :
  map isNumericY
      [ VNumber (DFin 15 (-1)); VString "12"; VString " 1.5e3 ";
        VString "Infinity"; VBoolean true; VBoolean false; VString "  ";
        VNull; VString ""; VUndefined; VString "12px"; VNumber DNaN ]
  = [ true; true; true; true; true; true; true;
      false; false; false; false; false ].
Proof. reflexivity. Qed.

(** C3, on a stale selection: the headers are Name and Sales, the X
    axis still names Region. *)
Lemma missing_column_witness :
  hasColumn nameAndSales "Region" && hasColumn nameAndSales "Sales" = false
  /\ (chartData [alice; bob] nameAndSales "Region" "Sales" bar
      = Build_Outcome None None
      /\ chartProps [alice; bob] nameAndSales "Region" "Sales" bar = None
      /\ errorAfter None
           (chartData [alice; bob] nameAndSales "Region" "Sales" bar)
         = None).
Proof.
  split; [ reflexivity |].
  apply (missing_column_yields_no_chart
           [alice; bob] nameAndSales "Region" "Sales" bar None).
  reflexivity.
Defined.

(** C3 as written fails: with an axis that names no header the memo
    calls [setError] with nothing, so no message is shown; what the
    user sees is what they see before any axis is chosen. *)
Lemma missing_column_is_silent :
  setError (chartData [alice; bob] nameAndSales "Region" "Sales" bar)
  = None
  /\ errorAfter None
       (chartData [alice; bob] nameAndSales "Region" "Sales" bar)
     = None
  /\ chartData [alice; bob] nameAndSales "Region" "Sales" bar
     = chartData [alice; bob] nameAndSales "" "" bar.
Proof. repeat split; reflexivity. Qed.

(** C6, on a bar chart. *)
Lemma layout_titles_witness :
  chartProps [alice; bob] nameAndSales "Name" "Sales" bar
  = Some ([traceOf bar "Name" "Sales"
             [VString "Alice"; VString "Bob"]
             [VNumber (DFin 10 0); VNumber (DFin 20 0)]],
          layout "Name" "Sales")
  /\ (fieldAt ["title"; "text"] (layout (num := dnum) "Name" "Sales")
      = Some (str "Sales vs Name")
      /\ fieldAt ["xaxis"; "title"] (layout (num := dnum) "Name" "Sales")
         = Some (str "Name")
      /\ fieldAt ["yaxis"; "title"] (layout (num := dnum) "Name" "Sales")
         = Some (str "Sales")).
Proof.
  split; [ reflexivity |].
  apply (layout_carries_titles [alice; bob] nameAndSales "Name" "Sales" bar
           [traceOf bar "Name" "Sales"
              [VString "Alice"; VString "Bob"]
              [VNumber (DFin 10 0); VNumber (DFin 20 0)]]
           (layout "Name" "Sales")).
  reflexivity.
Defined.

(** C6 as written fails for [pie]: the layout does not depend on the
    chart type, and the layout of a pie chart carries both axis
    titles. *)
Lemma pie_layout_has_axis_titles :
  exists drawn l,
    chartProps [alice; bob] nameAndSales "Name" "Sales" pie
    = Some (drawn, l)
    /\ fieldAt ["xaxis"; "title"] l = Some (str "Name")
    /\ fieldAt ["yaxis"; "title"] l = Some (str "Sales").
Proof. do 2 eexists. repeat split; reflexivity. Qed.

(** ** The upload *)

Import FileUpload.

(** A codec to run the upload on: the content of a file is its
    workbook, a worksheet is its rows. *)
Definition Sheet : Type := list (@Row dnum).
Definition Content : Type := @Workbook Sheet.

Definition readWorkbook (content : Content) : Thrown + Content :=
  inr content.

Definition rowsOf (sheet : option Sheet) : Thrown + list (@Row dnum) :=
  match sheet with
  | Some rows => inr rows
  | None => inr []
  end.

Definition oneSheet (rows : Sheet) : Content :=
  {| SheetNames := ["Sheet1"];
     Sheets := fun n => if String.eqb n "Sheet1" then Some rows else None |}.

Definition xlsx : string :=
  "application/vnd.openxmlformats-officedocument.spreadsheetml.sheet".

(** A text file of 11 MiB: too large, and of the wrong type. *)
Definition largeTextFile : @File Content :=
  {| name := "notes.txt"; size := 11 * 1024 * 1024; type := "text/plain";
     arrayBuffer := inr (oneSheet []) |}.

(** C7 and scenario B, on a file that fails both checks: the size
    message is the one reported. *)
Lemma oversize_file_witness :
  size largeTextFile > maxSize
  /\ (processExcelFile readWorkbook rowsOf largeTextFile
      = [ SetIsLoading true; SetError None; SetUploadProgress 0;
          SetError (Some sizeMessage);
          SetIsLoading false; ResetProgressLater ]
      /\ errorOf (processExcelFile readWorkbook rowsOf largeTextFile)
         = Some sizeMessage
      /\ decodes (processExcelFile readWorkbook rowsOf largeTextFile)
         = false).
Proof.
  split; [ reflexivity |].
  apply (oversize_file_is_refused_first readWorkbook rowsOf largeTextFile).
  reflexivity.
Defined.

(** The dropzone's own refusal reports the first error it lists. *)
Example dropzone_refusal :
  errorOf (onDropRejected (num := dnum) ["file-too-large"])
  = Some sizeMessage
  /\ errorOf (onDropRejected (num := dnum)
                ["file-invalid-type"; "file-too-large"])
     = Some typeMessage.
Proof. split; reflexivity. Qed.

(** A small file of the wrong type is refused with the type message. *)
Example wrong_type_refused :
  errorOf (processExcelFile readWorkbook rowsOf
             {| name := "notes.txt"; size := 100; type := "text/plain";
                arrayBuffer := inr (oneSheet []) |})
  = Some typeMessage.
Proof. reflexivity. Qed.

(** Scenario C: a sheet with a header row only has no data rows. *)
Example header_only_refused :
  errorOf (processExcelFile readWorkbook rowsOf
             {| name := "h.xlsx"; size := 100; type := xlsx;
                arrayBuffer := inr (oneSheet [[text "A"; text "B"]]) |})
  = Some noDataMessage.
Proof. reflexivity. Qed.

(** A sheet where the Sales cell of Alice is empty: the codec returns
    the row of Alice with one cell. *)
Definition raggedFile : @File Content :=
  {| name := "sales.xlsx"; size := 2048; type := xlsx;
     arrayBuffer :=
       inr (oneSheet [ [text "Name"; text "Sales"];
                       [text "Alice"];
                       bob ]) |}.

Definition raggedData : ExcelData dnum :=
  {| data := [ [text "Alice"]; bob ];
     headers := [text "Name"; text "Sales"];
     sheetNames := ["Sheet1"] |}.

(** C5, on that sheet. *)
Lemma decoded_data_witness :
  uploaded (processExcelFile readWorkbook rowsOf raggedFile)
  = Some raggedData
  /\ ((0 < List.length (data raggedData))%nat
      /\ (0 < List.length (headers raggedData))%nat
      /\ exists buffer workbook,
          arrayBuffer raggedFile = inr buffer
          /\ readWorkbook buffer = inr workbook
          /\ rowsOf (firstSheet workbook)
             = inr (headers raggedData :: data raggedData)
          /\ sheetNames raggedData = SheetNames workbook).
Proof.
  split; [ reflexivity |].
  apply (decoded_data_not_empty readWorkbook rowsOf raggedFile raggedData).
  reflexivity.
Defined.

(** C5 as written fails: the decoding of that sheet succeeds, and the
    row of Alice has one cell where there are two headers. *)
Lemma decoded_row_shorter_than_headers :
  exists d,
    uploaded (processExcelFile readWorkbook rowsOf raggedFile) = Some d
    /\ errorOf (processExcelFile readWorkbook rowsOf raggedFile) = None
    /\ List.length (headers d) = 2%nat
    /\ map (@List.length _) (data d) = [1%nat; 2%nat].
Proof. exists raggedData. repeat split; reflexivity. Qed.

(** ** The history *)

Import Dashboard.

Definition upload (n : Z) : Upload dnum :=
  {| upData := {| data := [alice; bob];
                  headers := [text "Name"; text "Sales"];
                  sheetNames := ["Sheet1"] |};
     upFileName := Some ("file" ++ decimal n ++ ".xlsx")%string;
     dateNow := 1700000000000 + n;
     newDate := 1700000000000 + n |}.

Definition record (n : Z) : UploadHistory :=
  {| id := decimal (1700000000000 + n);
     fileName := ("file" ++ decimal n ++ ".xlsx")%string;
     uploadDate := 1700000000000 + n;
     rowCount := 2; columnCount := 2 |}.

(** Six uploads: the history holds the records of the last five, the
    sixth first; the record of the first upload is gone. *)
Example six_uploads :
  uploadHistory (run (map upload [1; 2; 3; 4; 5; 6]) initialState)
  = map record [6; 5; 4; 3; 2].
Proof. reflexivity. Qed.

(** C9, on five uploads followed by a sixth. *)
Lemma history_witness :
  forallb succeeds (map upload [1; 2; 3; 4; 5]) = true
  /\ (let history :=
        uploadHistory (run (map upload [1; 2; 3; 4; 5]) initialState) in
      (List.length history <= 5)%nat
      /\ history = firstn 5 (rev (map newUpload (map upload [1; 2; 3; 4; 5])))
      /\ forall u, succeeds u = true ->
                   List.length history = 5%nat ->
                   uploadHistory
                     (run (map upload [1; 2; 3; 4; 5] ++ [u]) initialState)
                   = newUpload u :: removelast history).
Proof.
  split; [ reflexivity |].
  apply (history_keeps_latest_five (map upload [1; 2; 3; 4; 5])).
  reflexivity.
Defined.

(** An upload without rows is refused and leaves the history as it
    was. *)
Example empty_upload_refused :
  let u := {| upData := {| data := []; headers := [text "Name"];
                           sheetNames := [] |};
              upFileName := None; dateNow := 0; newDate := 0 |} in
  uploadHistory (fst (handleDataUpload u (run [upload 1] initialState)))
  = [record 1]
  /\ error (fst (handleDataUpload u (run [upload 1] initialState)))
     = Some "No data found in the uploaded file".
Proof. split; reflexivity. Qed.

(** ** Further properties, at work *)


(** X4: three rows are shown whole. *)
Lemma small_table_witness :
  (List.length (DataPreview.filteredAndSortedData [bob; alice; carol]
                  nameAndSales (sortBy "Sales" DataPreview.asc)) <= 10)%nat
  /\ (DataPreview.previewRows [bob; alice; carol] nameAndSales
        (sortBy "Sales" DataPreview.asc)
      = DataPreview.filteredAndSortedData [bob; alice; carol] nameAndSales
          (sortBy "Sales" DataPreview.asc)
      /\ DataPreview.hasMoreRows [bob; alice; carol] nameAndSales
           (sortBy "Sales" DataPreview.asc) = false
      /\ DataPreview.showsTruncationNote [bob; alice; carol] nameAndSales
           (sortBy "Sales" DataPreview.asc) = false).
Proof.
  assert (le : (List.length (DataPreview.filteredAndSortedData
                               [bob; alice; carol] nameAndSales
                               (sortBy "Sales" DataPreview.asc)) <= 10)%nat)
    by (vm_compute; lia).
  split; [ exact le |].
  apply (small_table_is_shown_whole [bob; alice; carol] nameAndSales
           (sortBy "Sales" DataPreview.asc)).
  exact le.
Defined.

(** X6: by Name, where no two rows are equal. *)
Lemma descending_reversed_witness :
  uniformColumn 0 [bob; carol; alice] = true
  /\ noTies (DataPreview.comparefn 0 DataPreview.asc) [bob; carol; alice]
     = true
  /\ sort (DataPreview.comparefn 0 DataPreview.desc) [bob; carol; alice]
     = rev (sort (DataPreview.comparefn 0 DataPreview.asc)
                 [bob; carol; alice]).
Proof.
  split; [ reflexivity |]. split; [ reflexivity |].
  apply (descending_is_ascending_reversed [bob; carol; alice] 0);
    reflexivity.
Defined.

(** With two rows of equal Sales the descending order is not the
    ascending order reversed: Alice stays before Carol in both. *)
Example descending_with_ties :
  sort (DataPreview.comparefn 1 DataPreview.desc) [bob; alice; carol]
  = [bob; alice; carol]
  /\ rev (sort (DataPreview.comparefn 1 DataPreview.asc) [bob; alice; carol])
     = [bob; carol; alice].
Proof. split; reflexivity. Qed.

(** X7: a sort column that is no header. *)
Lemma sort_without_column_witness :
  sortsByHeader nameAndSales (sortBy "Region" DataPreview.desc) = false
  /\ DataPreview.filteredAndSortedData [bob; alice; carol] nameAndSales
       (sortBy "Region" DataPreview.desc)
     = DataPreview.filteredData [bob; alice; carol]
         (sortBy "Region" DataPreview.desc).
Proof.
  split; [ reflexivity |].
  apply (sort_without_column_keeps_order [bob; alice; carol] nameAndSales
           (sortBy "Region" DataPreview.desc)).
  reflexivity.
Defined.

(** The state of the chart after a Y column without numbers. *)
Definition afterFailure : ChartGenerator.State :=
  {| ChartGenerator.xAxis := "Name"; ChartGenerator.yAxis := "Sales";
     ChartGenerator.chartType := bar;
     ChartGenerator.error := Some noNumericDataMessage |}.

(** X10: the chart of Sales is drawn, and the message of the earlier
    failure is still there. *)
Lemma sticky_error_witness :
  ChartGenerator.error afterFailure = Some noNumericDataMessage
  /\ ((exists m',
          ChartGenerator.error
            (ChartGenerator.render [alice; bob] nameAndSales afterFailure)
          = Some m')
      /\ (traces (chartData [alice; bob] nameAndSales
                    (ChartGenerator.xAxis afterFailure)
                    (ChartGenerator.yAxis afterFailure)
                    (ChartGenerator.chartType afterFailure))
          <> None ->
          ChartGenerator.error
            (ChartGenerator.render [alice; bob] nameAndSales afterFailure)
          = Some noNumericDataMessage)
      /\ ChartGenerator.error
           (resetChart
              (ChartGenerator.render [alice; bob] nameAndSales afterFailure))
         = None).
Proof.
  split; [ reflexivity |].
  apply (render_never_clears_error [alice; bob] nameAndSales afterFailure
           noNumericDataMessage).
  reflexivity.
Defined.


(** X12: two columns named Sales; the axis reads the first. *)
Lemma first_column_witness :
  hasColumn ["Name"] "Sales" = false
  /\ (indexOf (["Name"] ++ "Sales" :: ["Sales"]) "Sales"
      = Z.of_nat (List.length ["Name"])
      /\ column [alice; bob]
                (indexOf (["Name"] ++ "Sales" :: ["Sales"]) "Sales")
         = map (fun row => get row (Z.of_nat (List.length ["Name"])))
               [alice; bob]
      /\ forall d a b,
          DataPreview.comparefn
            (indexOf (["Name"] ++ "Sales" :: ["Sales"]) "Sales") d a b
          = DataPreview.comparefn (Z.of_nat (List.length ["Name"])) d a b).
Proof.
  split; [ reflexivity |].
  apply (axis_reads_first_column_of_its_name [alice; bob]
           ["Name"] ["Sales"] "Sales").
  reflexivity.
Defined.

(** X14: a small text file. *)
Definition smallTextFile : @File Content :=
  {| name := "notes.txt"; size := 100; type := "text/plain";
     arrayBuffer := inr (oneSheet []) |}.

Lemma unsupported_type_witness :
  size smallTextFile <= maxSize
  /\ includes allowedTypes (type smallTextFile) = false
  /\ (processExcelFile readWorkbook rowsOf smallTextFile
      = [ SetIsLoading true; SetError None; SetUploadProgress 0;
          SetError (Some typeMessage);
          SetIsLoading false; ResetProgressLater ]
      /\ decodes (processExcelFile readWorkbook rowsOf smallTextFile)
         = false).
Proof.
  assert (small : size smallTextFile <= maxSize)
    by (vm_compute; discriminate).
  split; [ exact small |]. split; [ reflexivity |].
  apply (unsupported_type_is_refused_unread readWorkbook rowsOf
           smallTextFile); [ exact small | reflexivity ].
Defined.



(** X17: a file that cannot be read. *)
Definition unreadableFile : @File Content :=
  {| name := "u.xlsx"; size := 100; type := xlsx;
     arrayBuffer := inl (ThrownError "The file could not be read") |}.

Lemma thrown_error_witness :
  accepted unreadableFile = true
  /\ thrownBy readWorkbook rowsOf unreadableFile
     = Some (ThrownError "The file could not be read")
  /\ (errorOf (processExcelFile readWorkbook rowsOf unreadableFile)
      = Some "The file could not be read"
      /\ uploaded (processExcelFile readWorkbook rowsOf unreadableFile)
         = None).
Proof.
  split; [ reflexivity |]. split; [ reflexivity |].
  apply (thrown_error_is_reported readWorkbook rowsOf unreadableFile
           (ThrownError "The file could not be read")); reflexivity.
Defined.

(** X18: the sheet with the short row of Alice, handed to the
    dashboard. *)
Lemma decoded_data_accepted_witness :
  uploaded (processExcelFile readWorkbook rowsOf raggedFile) = Some raggedData
  /\ (let u := {| Dashboard.upData := raggedData;
                  Dashboard.upFileName := Some (name raggedFile);
                  Dashboard.dateNow := 1700000000000;
                  Dashboard.newDate := 1700000000000 |} in
      In (OnDataUpload raggedData (name raggedFile))
         (processExcelFile readWorkbook rowsOf raggedFile)
      /\ Dashboard.validate raggedData = None
      /\ Dashboard.uploadedData
           (fst (Dashboard.handleDataUpload u Dashboard.initialState))
         = Some raggedData
      /\ Dashboard.error
           (fst (Dashboard.handleDataUpload u Dashboard.initialState))
         = None
      /\ Dashboard.destructive
           (snd (Dashboard.handleDataUpload u Dashboard.initialState))
         = false).
Proof.
  split; [ reflexivity |].
  apply (decoded_data_is_accepted readWorkbook rowsOf raggedFile raggedData
           1700000000000 1700000000000 Dashboard.initialState).
  reflexivity.
Defined.

(** X21: seven uploads, a refused one and a reset among the actions. *)
Definition busyDay : list (@Dashboard.Action dnum) :=
  [ DoUpload (upload 1); DoUpload (upload 2); DoReset;
    DoUpload {| upData := {| data := []; headers := [text "Name"];
                             sheetNames := [] |};
                upFileName := None; dateNow := 5; newDate := 5 |};
    DoUpload (upload 3); DoUpload (upload 4); DoUpload (upload 5);
    DoUpload (upload 6); DoUpload (upload 7) ].

Lemma history_ids_witness :
  allDistinct (map dateNow (successes busyDay)) = true
  /\ NoDup (map id (uploadHistory (runActions busyDay initialState))).
Proof.
  split; [ reflexivity |].
  apply (history_ids_are_distinct busyDay). reflexivity.
Defined.

Example busy_day_history :
  uploadHistory (runActions busyDay initialState) = map record [7; 6; 5; 4; 3]
  /\ totalUploads (runActions busyDay initialState) = "5".
Proof. split; reflexivity. Qed.

End Scenario.
